(** * HexMem spaced-repetition review system (review.py)

    A shallow embedding of [review.py]: the forgetting curve
    ([calculate_retention]), the interval ladder ([get_next_interval]),
    the review transaction ([review_item]), the decay sweep
    ([process_decay]) and the [--review] branch of [main].

    Modelling conventions.
    - A Python [float] is a real number ([R]) and [math.exp] is [exp]:
      rounding, overflow and NaN are outside the model.  In particular
      [math.exp] raises [OverflowError] for an argument above about
      709.78, which [calculate_retention] reaches only for a last review
      more than [709 * 24 * strength] hours in the future; the model has
      no such raise.  A statement that asserts a write therefore either
      takes the retention as computed or keeps the last review out of the
      future.  A Python [int] is a [Z].
    - A Python exception is a value of [exn]; a function that can raise
      returns a [result].
    - A timestamp (ISO text in the database, [datetime] in Python) is the
      real number of seconds since the Unix epoch.  One call of
      [review_item] reads the clock once; each SQL statement of
      [process_decay] evaluates ['now'] on its own.
    - A table is the list of its rows, in storage order.  [SELECT ... WHERE
      id = ?] followed by [fetchone] is the first row with that id;
      [UPDATE ... WHERE id = ?] rewrites every row with that id.
    - The schema is not part of [review.py].  The columns it names are
      taken as they are used: [last_reviewed_at] and [next_review_at] may
      be NULL, the others hold a value.  Failures of the database itself
      and what is printed are left out. *)

From Stdlib Require Import Reals ZArith List String Ascii Bool Lra Lia.
From Stdlib Require Import Sorted.
Import ListNotations.

#[local] Open Scope R_scope.

(** ** Python runtime pieces *)

Inductive exn : Type :=
| ZeroDivisionError
| IndexError
| ValueError
| SystemExit.

Inductive result (A : Type) : Type :=
| Ok (a : A)
| Raise (e : exn).

Arguments Ok {A} a.
Arguments Raise {A} e.

Definition bind {A B : Type} (m : result A) (k : A -> result B) : result B :=
  match m with
  | Ok a => k a
  | Raise e => Raise e
  end.

Notation "x <- m ;; k" := (bind m (fun x => k))
  (at level 61, m at next level, right associativity).

(** [l[i]] for a Python list: a negative index counts from the end, an
    index outside [-len, len) raises [IndexError]. *)
Definition py_index {A : Type} (l : list A) (i : Z) : result A :=
  let n := Z.of_nat (List.length l) in
  let j := if (i <? 0)%Z then (i + n)%Z else i in
  if ((j <? 0) || (n <=? j))%Z then Raise IndexError
  else match nth_error l (Z.to_nat j) with
       | Some a => Ok a
       | None => Raise IndexError
       end.

(** [x / y] on floats: a zero divisor raises. *)
Definition py_div (x y : R) : result R :=
  if Req_dec_T y 0 then Raise ZeroDivisionError else Ok (x / y).

(** ** The forgetting curve and the interval ladder *)

Definition INTERVALS : list R :=
  [0.33; 1; 24; 72; 168; 336; 720; 2160; 4320; 8760].

Definition calculate_retention (hours_since_review memory_strength : R)
  : result R :=
  let s := memory_strength * 24 in
  q <- py_div (- hours_since_review) s ;;
  Ok (exp q).

Definition get_next_interval (repetition_count quality : Z) : result R :=
  if (quality <? 3)%Z then py_index INTERVALS 0
  else
    let next_rep :=
      Z.min (repetition_count + 1) (Z.of_nat (List.length INTERVALS) - 1) in
    base_interval <- py_index INTERVALS next_rep ;;
    if (quality =? 5)%Z then Ok (base_interval * 1.3)
    else if (quality =? 3)%Z then Ok (base_interval * 0.8)
    else Ok base_interval.

(** ** The database *)

(** A row of [events] or of [lessons].  [created_at] is the column
    [occurred_at] of [events] and [learned_at] of [lessons]. *)
Record item : Type := mk_item {
  item_id : Z;
  summary : string;
  importance : R;
  memory_strength : R;
  repetition_count : Z;
  last_reviewed_at : option R;
  created_at : R;
  next_review_at : option R;
  retention_estimate : R;
  consolidation_state : string
}.

Record review_log_entry : Type := mk_log {
  log_source_table : string;
  log_source_id : Z;
  retention_before : R;
  log_quality : Z;
  time_since_last_review_hours : R
}.

Record store : Type := mk_store {
  events : list item;
  lessons : list item;
  review_log : list review_log_entry
}.

(** The table [review_item] reads and writes: ['events'] selects
    [events], every other name falls to the [else] branch, [lessons]. *)
Definition is_events (source_table : string) : bool :=
  String.eqb source_table "events".

Definition table_of (conn : store) (source_table : string) : list item :=
  if is_events source_table then events conn else lessons conn.

Definition with_table (conn : store) (source_table : string)
  (rows : list item) : store :=
  if is_events source_table
  then mk_store rows (lessons conn) (review_log conn)
  else mk_store (events conn) rows (review_log conn).

(** [SELECT ... WHERE id = ?] then [fetchone()]. *)
Definition fetchone (rows : list item) (source_id : Z) : option item :=
  find (fun row => (item_id row =? source_id)%Z) rows.

(** [UPDATE ... SET ... WHERE id = ?]. *)
Definition update_where_id (set : item -> item) (source_id : Z)
  (rows : list item) : list item :=
  map (fun row => if (item_id row =? source_id)%Z then set row else row) rows.

(** The [SET] clause of the update in [review_item]. *)
Definition set_review (new_strength : R) (new_rep_count : Z)
  (now next_review : R) (row : item) : item :=
  mk_item (item_id row) (summary row) (importance row)
    new_strength new_rep_count (Some now) (created_at row)
    (Some next_review) 1 (consolidation_state row).

(** The [SET] clause of the update in [process_decay]. *)
Definition set_forgotten (row : item) : item :=
  mk_item (item_id row) (summary row) (importance row)
    (memory_strength row) (repetition_count row) (last_reviewed_at row)
    (created_at row) (next_review_at row) (retention_estimate row)
    "forgotten".

(** [INSERT INTO review_log ...]. *)
Definition insert_log (conn : store) (entry : review_log_entry) : store :=
  mk_store (events conn) (lessons conn) (review_log conn ++ [entry]).

(** [last_reviewed or created] in Python, [COALESCE] in SQL. *)
Definition COALESCE (a : option R) (b : R) : R :=
  match a with
  | Some t => t
  | None => b
  end.

(** ** review_item *)

Definition quality_labels : list string :=
  ["Blackout"; "Barely"; "Struggled"; "Hard"; "Good"; "Easy"]%string.

Inductive review_report : Type :=
| ItemNotFound
| ReviewRecorded (strength new_strength next_interval_hours : R)
| BadFormat.

(** The new strength and repetition count (the [if quality >= 3] block). *)
Definition strengthen (strength : R) (rep_count : Z) (current_retention : R)
  (quality : Z) : R * Z :=
  if (3 <=? quality)%Z then
    let retention_bonus := 1.0 + (1.0 - current_retention) * 0.5 in
    let strength_multiplier := 1.1 + IZR (quality - 3) * 0.1 in
    (Rmin 10.0 (strength * strength_multiplier * retention_bonus),
     (rep_count + 1)%Z)
  else
    (Rmax 0.5 (strength * 0.7), 0%Z).

(** The result is the database as committed and either what was printed
    or the exception that ended the call. *)
Definition review_item (now : R) (conn : store) (source_table : string)
  (source_id quality : Z) : store * result review_report :=
  match fetchone (table_of conn source_table) source_id with
  | None => (conn, Ok ItemNotFound)
  | Some row =>
    let strength := memory_strength row in
    let rep_count := repetition_count row in
    let last_reviewed := COALESCE (last_reviewed_at row) (created_at row) in
    let hours_since := (now - last_reviewed) / 3600 in
    match calculate_retention hours_since strength with
    | Raise e => (conn, Raise e)
    | Ok current_retention =>
      let '(new_strength, new_rep_count) :=
        strengthen strength rep_count current_retention quality in
      match get_next_interval new_rep_count quality with
      | Raise e => (conn, Raise e)
      | Ok next_interval_hours =>
        let next_review := now + next_interval_hours * 3600 in
        let rows :=
          update_where_id
            (set_review new_strength new_rep_count now next_review)
            source_id (table_of conn source_table) in
        let entry :=
          mk_log source_table source_id current_retention quality
            hours_since in
        (insert_log (with_table conn source_table rows) entry,
         _ <- py_index quality_labels quality ;;
         Ok (ReviewRecorded strength new_strength next_interval_hours))
      end
    end
  end.

(** ** process_decay *)

Definition Rltb (x y : R) : bool := if Rlt_dec x y then true else false.

Definition JULIANDAY (t : R) : R := 2440587.5 + t / 86400.

(** SQL division: a zero divisor yields NULL ([None]). *)
Definition sql_div (x y : R) : option R :=
  if Req_dec_T y 0 then None else Some (x / y).

(** [EXP(-((JULIANDAY('now') - JULIANDAY(COALESCE(last_reviewed_at,
    occurred_at))) * 24) / (memory_strength * 24))]. *)
Definition sql_retention (now : R) (row : item) : option R :=
  let last := COALESCE (last_reviewed_at row) (created_at row) in
  option_map exp
    (sql_div (- ((JULIANDAY now - JULIANDAY last) * 24))
       (memory_strength row * 24)).

(** The [WHERE] clause shared by the [SELECT] and by the subquery of the
    [UPDATE]; a NULL comparison selects nothing. *)
Definition decay_where (now : R) (row : item) : bool :=
  negb (String.eqb (consolidation_state row) "forgotten")
  && Rltb (importance row) 0.3
  && match sql_retention now row with
     | Some retention => Rltb retention 0.1
     | None => false
     end.

(** What the sweep reports: the rows its listing query selected. *)
Inductive decay_report : Type :=
| NoCandidates
| DryRun (candidates : list item)
| MarkedForgotten (candidates : list item).

Definition process_decay (now_select now_update : R) (conn : store)
  (dry_run : bool) : store * decay_report :=
  let candidates := filter (decay_where now_select) (events conn) in
  match candidates with
  | [] => (conn, NoCandidates)
  | _ :: _ =>
    if dry_run then (conn, DryRun candidates)
    else
      let ids := map item_id (filter (decay_where now_update) (events conn)) in
      let rows :=
        map (fun row =>
               if existsb (Z.eqb (item_id row)) ids
               then set_forgotten row else row)
            (events conn) in
      (mk_store rows (lessons conn) (review_log conn),
       MarkedForgotten candidates)
  end.

(** ** The [--review] branch of [main] *)

(** [s.split(':')]. *)
Fixpoint split_colon (s : string) : list string :=
  match s with
  | EmptyString => [EmptyString]
  | String c rest =>
    if Ascii.eqb c ":"%char then EmptyString :: split_colon rest
    else match split_colon rest with
         | [] => [String c EmptyString]
         | part :: parts => String c part :: parts
         end
  end.

Section Main.

(** [int(text)], which raises [ValueError] on text that is no integer. *)
Variable py_int : string -> result Z.

(** The branch [elif args.review:], taken when [--due] is absent and
    [review], the text given to [--review], is not empty.  [quality] is
    [args.quality]: argparse has converted it and checks it against
    [choices=[0,1,2,3,4,5]], leaving with [SystemExit] before the
    database is opened. *)
Definition main_review (now : R) (conn : store) (review : string)
  (quality : Z) : store * result review_report :=
  if negb ((0 <=? quality) && (quality <=? 5))%Z
  then (conn, Raise SystemExit)
  else
    match split_colon review with
    | [source_table; id_text] =>
      match py_int id_text with
      | Raise e => (conn, Raise e)
      | Ok source_id => review_item now conn source_table source_id quality
      end
    | _ => (conn, Ok BadFormat)
    end.

End Main.

(** ** Sequences of operations *)

Inductive op : Type :=
| Review (now : R) (source_table : string) (source_id quality : Z)
| Decay (now_select now_update : R) (dry_run : bool).

Definition step (conn : store) (o : op) : store :=
  match o with
  | Review now source_table source_id quality =>
    fst (review_item now conn source_table source_id quality)
  | Decay now_select now_update dry_run =>
    fst (process_decay now_select now_update conn dry_run)
  end.

Definition run (conn : store) (ops : list op) : store :=
  fold_left step ops conn.

(** The latest review clock reading once [o] has run after [t]. *)
Definition clock_after (t : R) (o : op) : R :=
  match o with
  | Review now _ _ _ => now
  | Decay _ _ _ => t
  end.

(** The clock readings of the reviews never go back from [t]. *)
Fixpoint chronological (t : R) (ops : list op) : Prop :=
  match ops with
  | [] => True
  | Review now _ _ _ :: rest => t <= now /\ chronological now rest
  | Decay _ _ _ :: rest => chronological t rest
  end.

(** ** Notions used in the statements *)

(** The elapsed hours that [review_item] computes for a row:
    [(utcnow() - last_dt).total_seconds() / 3600]. *)
Definition hours_since (now : R) (row : item) : R :=
  (now - COALESCE (last_reviewed_at row) (created_at row)) / 3600.

(** A SQL value read as a Python result: NULL where Python raises. *)
Definition null_on_error {A : Type} (r : result A) : option A :=
  match r with
  | Ok a => Some a
  | Raise _ => None
  end.

(** The database after the two writes of [review_item] on [row], with
    the retention [current_retention] and the interval
    [next_interval_hours] computed on the way. *)
Definition review_written (now : R) (conn : store) (source_table : string)
  (source_id quality : Z) (row : item)
  (current_retention next_interval_hours : R) : store :=
  let new :=
    strengthen (memory_strength row) (repetition_count row)
      current_retention quality in
  insert_log
    (with_table conn source_table
       (update_where_id
          (set_review (fst new) (snd new) now
             (now + next_interval_hours * 3600))
          source_id (table_of conn source_table)))
    (mk_log source_table source_id current_retention quality
       (hours_since now row)).

(** The only change of state between two versions of a row: none, or
    the move to ['forgotten']. *)
Definition one_way (row row' : item) : Prop :=
  item_id row' = item_id row /\
  (consolidation_state row' = consolidation_state row \/
   consolidation_state row' = "forgotten"%string).

(** [row'] is [row] marked as forgotten: the state is ['forgotten'] and
    every other column is as it was. *)
Definition marked_forgotten (row row' : item) : Prop :=
  consolidation_state row' = "forgotten"%string /\
  item_id row' = item_id row /\
  summary row' = summary row /\
  importance row' = importance row /\
  memory_strength row' = memory_strength row /\
  repetition_count row' = repetition_count row /\
  last_reviewed_at row' = last_reviewed_at row /\
  created_at row' = created_at row /\
  next_review_at row' = next_review_at row /\
  retention_estimate row' = retention_estimate row.

(** What a sweep whose update runs at [now] makes of an event: a selected
    row is marked as forgotten, any other row is left as it was. *)
Definition swept (now : R) (row row' : item) : Prop :=
  (decay_where now row = true -> marked_forgotten row row') /\
  (decay_where now row = false -> row' = row).

(** What the [UPDATE] of the sweep does to a row, when ids are unique. *)
Definition forget_where (now : R) (row : item) : item :=
  if decay_where now row then set_forgotten row else row.

(** ** Sample databases *)

(** An event of strength 2.0 with two repetitions, reviewed at time 0. *)
Definition sample_event : item :=
  mk_item 1 "release retrospective" 0.5 2.0 2 (Some 0) 0 None 1 "active".

Definition sample_store : store := mk_store [sample_event] [] [].

(** An event and a lesson of low importance, created at time 0 and never
    reviewed. *)
Definition faded_event : item :=
  mk_item 1 "old build failure" 0.1 1 0 None 0 None 1 "active".

Definition faded_lesson : item :=
  mk_item 1 "obsolete workaround" 0.1 1 0 None 0 None 1 "active".

Definition faded_store : store := mk_store [faded_event] [faded_lesson] [].

(** An event whose [occurred_at] is one day (86400 s) after time 0. *)
Definition planned_event : item :=
  mk_item 1 "planned migration" 0.5 0.5 0 None 86400 None 1 "active".

Definition planned_store : store := mk_store [planned_event] [] [].

(** A reader of unsigned decimal numerals, to run [main_review] on
    sample input; Python's [int] accepts these and more. *)
Fixpoint digits_value (acc : Z) (s : string) : result Z :=
  match s with
  | EmptyString => Ok acc
  | String c rest =>
    let d := Z.of_nat (nat_of_ascii c) in
    if ((48 <=? d) && (d <=? 57))%Z
    then digits_value (10 * acc + (d - 48))%Z rest
    else Raise ValueError
  end.

Definition decimal_int (s : string) : result Z :=
  match s with
  | EmptyString => Raise ValueError
  | String _ _ => digits_value 0 s
  end.

(** ** Notions used in the further properties *)

(** The columns that no statement of [review.py] writes. *)
Definition fixed_columns (row : item) : Z * string * R * R :=
  (item_id row, summary row, importance row, created_at row).

Definition is_review (o : op) : bool :=
  match o with
  | Review _ _ _ _ => true
  | Decay _ _ _ => false
  end.

(** The reviews of one item, given as clock readings and qualities. *)
Definition reviews_of (t : string) (k : Z) (reviews : list (R * Z))
  : list op :=
  map (fun p => Review (fst p) t k (snd p)) reviews.

Definition is_forgotten (row : item) : bool :=
  String.eqb (consolidation_state row) "forgotten".

(** An event whose strength is 0. *)
Definition inert_event : item :=
  mk_item 7 "empty placeholder" 0.5 0 0 None 0 None 1 "active".

Definition inert_store : store := mk_store [inert_event] [] [].

(** The number of [':'] in a text, and [':'.join(parts)]. *)
Fixpoint count_colons (s : string) : nat :=
  match s with
  | EmptyString => 0
  | String c rest =>
    ((if Ascii.eqb c ":"%char then 1 else 0) + count_colons rest)%nat
  end.

Fixpoint join_colon (parts : list string) : string :=
  match parts with
  | [] => EmptyString
  | [part] => part
  | part :: rest => part ++ String ":"%char (join_colon rest)
  end.

(** What a row of importance 0.3 or more keeps from one version to the
    next: its id, its importance and its consolidation state. *)
Definition kept_if_important (row row' : item) : Prop :=
  item_id row' = item_id row /\
  importance row' = importance row /\
  (0.3 <= importance row ->
   consolidation_state row' = consolidation_state row).

(** ** The whole of [main] *)

(** The parsed command line.  [arg_review] is [None] when [--review] is
    absent; [arg_quality] is 4 when [--quality] is absent. *)
Record args : Type := mk_args {
  arg_due : bool;
  arg_review : option string;
  arg_quality : Z;
  arg_stats : bool;
  arg_decay : bool;
  arg_apply : bool;
  arg_limit : Z
}.

Inductive main_report : Type :=
| ShownDue
| Reviewed (report : review_report)
| ShownStats
| Decayed (report : decay_report)
| PrintedHelp.

Section Dispatch.

Variable py_int : string -> result Z.

(** [show_due_items] and [show_stats] only run [SELECT]s on views that
    are not part of [review.py] and print the rows: they leave the
    database as it is. *)
Definition main (now now_select now_update : R) (conn : store) (a : args)
  : store * result main_report :=
  if negb ((0 <=? arg_quality a) && (arg_quality a <=? 5))%Z
  then (conn, Raise SystemExit)
  else if arg_due a then (conn, Ok ShownDue)
  else
    match arg_review a with
    | Some (String _ _ as review) =>
      let '(conn', r) := main_review py_int now conn review (arg_quality a) in
      (conn', report <- r ;; Ok (Reviewed report))
    | _ =>
      if arg_stats a then (conn, Ok ShownStats)
      else if arg_decay a then
        let '(conn', report) :=
          process_decay now_select now_update conn (negb (arg_apply a)) in
        (conn', Ok (Decayed report))
      else (conn, Ok PrintedHelp)
    end.

End Dispatch.

(** ** Auxiliary: the series of the exponential *)

(** The term [x^n / n!] of the series of [exp (- x)]. *)
Definition exp_term (x : R) (n : nat) : R := x ^ n / INR (fact n).

(** * Properties *)

(** ** Python indexing *)

Lemma py_index_nonneg {A : Type} (l : list A) (i : Z) (a : A) :
  (0 <= i)%Z -> nth_error l (Z.to_nat i) = Some a -> py_index l i = Ok a.
Proof.
  intros Hi Hnth. unfold py_index.
  assert (Hlt : (Z.to_nat i < List.length l)%nat).
  { apply nth_error_Some. rewrite Hnth. discriminate. }
  destruct (i <? 0)%Z eqn:Hneg; [apply Z.ltb_lt in Hneg; lia|].
  rewrite Hneg.
  destruct (Z.of_nat (List.length l) <=? i)%Z eqn:Hbig;
    [apply Z.leb_le in Hbig; lia|].
  simpl. rewrite Hnth. reflexivity.
Qed.

Lemma py_index_in_range {A : Type} (l : list A) (i : Z) :
  (0 <= i < Z.of_nat (List.length l))%Z ->
  exists a, nth_error l (Z.to_nat i) = Some a /\ py_index l i = Ok a.
Proof.
  intros Hi.
  destruct (nth_error l (Z.to_nat i)) as [a|] eqn:Hnth.
  - exists a. split; [reflexivity|]. apply py_index_nonneg; [lia|exact Hnth].
  - apply nth_error_None in Hnth. lia.
Qed.

(** ** The interval ladder *)

Lemma INTERVALS_length : List.length INTERVALS = 10%nat.
Proof. reflexivity. Qed.

Lemma get_next_interval_failed (repetition_count quality : Z) :
  (quality < 3)%Z -> get_next_interval repetition_count quality = Ok 0.33.
Proof.
  intros Hq. unfold get_next_interval.
  replace (quality <? 3)%Z with true by (symmetry; apply Z.ltb_lt; lia).
  apply py_index_nonneg; [lia | reflexivity].
Qed.

Lemma get_next_interval_success (repetition_count quality : Z) (rung : R) :
  (0 <= repetition_count)%Z ->
  (3 <= quality)%Z ->
  nth_error INTERVALS (Z.to_nat (Z.min (repetition_count + 1) 9))
    = Some rung ->
  get_next_interval repetition_count quality =
  Ok (if (quality =? 5)%Z then rung * 1.3
      else if (quality =? 3)%Z then rung * 0.8 else rung).
Proof.
  intros Hr Hq Hnth. unfold get_next_interval.
  destruct (quality <? 3)%Z eqn:Hlt; [apply Z.ltb_lt in Hlt; lia|].
  rewrite INTERVALS_length. change (Z.of_nat 10 - 1)%Z with 9%Z.
  rewrite (py_index_nonneg INTERVALS _ rung); [|lia|exact Hnth].
  unfold bind.
  destruct (quality =? 5)%Z; [reflexivity|].
  destruct (quality =? 3)%Z; reflexivity.
Qed.

(** C2.  For a repetition count at least 0 and a quality in 0..5: a
    quality below 3 gives the first rung, 0.33 hours, of the ladder
    [0.33, 1, 24, 72, 168, 336, 720, 2160, 4320, 8760], whatever the
    repetition count; otherwise the result is the rung at index
    [min (repetition_count + 1) 9], times 1.3 at quality 5, times 0.8 at
    quality 3 and times 1.0 at quality 4.  So the interval for (0, 4) is 1
    and the interval for (5, 5) is 720 * 1.3 = 936. *)
Theorem get_next_interval_spec (repetition_count quality : Z) :
  (0 <= repetition_count)%Z ->
  (0 <= quality <= 5)%Z ->
  INTERVALS = [0.33; 1; 24; 72; 168; 336; 720; 2160; 4320; 8760] /\
  ((quality < 3)%Z ->
   nth_error INTERVALS 0 = Some 0.33 /\
   get_next_interval repetition_count quality = Ok 0.33) /\
  ((3 <= quality)%Z ->
   exists rung,
     nth_error INTERVALS (Z.to_nat (Z.min (repetition_count + 1) 9))
       = Some rung /\
     (quality = 5%Z ->
      get_next_interval repetition_count quality = Ok (rung * 1.3)) /\
     (quality = 3%Z ->
      get_next_interval repetition_count quality = Ok (rung * 0.8)) /\
     (quality = 4%Z ->
      get_next_interval repetition_count quality = Ok (rung * 1.0))) /\
  get_next_interval 0 4 = Ok 1 /\
  get_next_interval 5 5 = Ok (720 * 1.3) /\
  720 * 1.3 = 936.
Proof.
  intros Hr Hq. split; [reflexivity|]. split; [|split].
  - intros Hlt. split; [reflexivity|].
    apply get_next_interval_failed; exact Hlt.
  - intros Hge.
    destruct (py_index_in_range INTERVALS (Z.min (repetition_count + 1) 9))
      as [rung [Hnth _]].
    { rewrite INTERVALS_length. lia. }
    exists rung. split; [exact Hnth|].
    rewrite (get_next_interval_success _ _ rung Hr Hge Hnth).
    repeat split; intros ->; simpl; try reflexivity.
    f_equal. lra.
  - split; [|split].
    + apply (get_next_interval_success 0 4 1); [lia | lia | reflexivity].
    + apply (get_next_interval_success 5 5 720); [lia | lia | reflexivity].
    + lra.
Qed.

Lemma get_next_interval_spec_witness :
  (0 <= 5)%Z /\ (0 <= 5 <= 5)%Z /\
  get_next_interval 5 5 = Ok (720 * 1.3).
Proof.
  split; [lia|]. split; [lia|].
  exact (proj1 (proj2 (proj2 (proj2 (proj2
    (get_next_interval_spec 5 5 ltac:(lia) ltac:(lia))))))).
Defined.

(** ** Bounds on the exponential *)

Lemma exp_term_decreasing (x : R) :
  0 <= x <= 1 -> Un_decreasing (exp_term x).
Proof.
  intros [Hx0 Hx1] n. unfold exp_term.
  rewrite fact_simpl, mult_INR.
  assert (Hf : 0 < INR (fact n)) by apply INR_fact_lt_0.
  assert (Hs : 1 <= INR (S n)).
  { rewrite S_INR. pose proof (pos_INR n). lra. }
  assert (Hp : 0 <= x ^ n) by (apply pow_le; exact Hx0).
  assert (Hkf : 0 < INR (S n) * INR (fact n))
    by (apply Rmult_lt_0_compat; lra).
  replace (x ^ n / INR (fact n))
    with (x ^ n * INR (S n) / (INR (S n) * INR (fact n)))
    by (field; lra).
  apply Rmult_le_compat_r.
  - left. apply Rinv_0_lt_compat. exact Hkf.
  - change (x ^ S n) with (x * x ^ n).
    assert (Hxk : x <= INR (S n)) by lra.
    pose proof (Rmult_le_compat_l (x ^ n) x (INR (S n)) Hp Hxk). lra.
Qed.

Lemma exp_term_alt_sum (x : R) (n : nat) :
  sum_f_R0 (fun i => / INR (fact i) * (- x) ^ i) n =
  sum_f_R0 (tg_alt (exp_term x)) n.
Proof.
  apply sum_eq. intros i _. unfold tg_alt, exp_term.
  replace (- x) with (-1 * x) by ring. rewrite Rpow_mult_distr.
  unfold Rdiv. ring.
Qed.

(** The partial sums of the series enclose [exp (- x)]. *)
Lemma exp_neg_enclosure (x : R) (N : nat) :
  0 <= x <= 1 ->
  sum_f_R0 (tg_alt (exp_term x)) (S (2 * N)) <= exp (- x)
    <= sum_f_R0 (tg_alt (exp_term x)) (2 * N).
Proof.
  intros Hx. apply alternated_series_ineq.
  - apply exp_term_decreasing; exact Hx.
  - exact (cv_speed_pow_fact x).
  - unfold exp. destruct (exist_exp (- x)) as [l Hl]. simpl.
    intros eps Heps. destruct (Hl eps Heps) as [n0 Hn0].
    exists n0. intros n Hn. rewrite <- exp_term_alt_sum.
    apply Hn0; exact Hn.
Qed.

Lemma exp_neg_half_bounds : 0.60653 < exp (- (1 / 2)) < 0.60654.
Proof.
  pose proof (exp_neg_enclosure (1 / 2) 3 ltac:(lra)) as [Hlo Hhi].
  cbn [Nat.mul Nat.add sum_f_R0] in Hlo, Hhi.
  unfold tg_alt, exp_term in Hlo, Hhi.
  repeat rewrite fact_simpl in Hlo, Hhi.
  repeat rewrite mult_INR in Hlo, Hhi.
  simpl in Hlo, Hhi.
  split; lra.
Qed.

Lemma exp_neg_small (x : R) : 9 < x -> exp (- x) < 0.1.
Proof.
  intros Hx. rewrite exp_Ropp.
  pose proof (exp_ineq1_le x) as Hexp.
  assert (Hpos : 0 < exp x) by apply exp_pos.
  apply Rmult_lt_reg_r with (exp x); [exact Hpos|].
  rewrite Rinv_l by lra. lra.
Qed.

Lemma exp_nonpos_le_1 (x : R) : x <= 0 -> exp x <= 1.
Proof.
  intros [Hx | ->].
  - left. rewrite <- exp_0. apply exp_increasing. exact Hx.
  - rewrite exp_0. lra.
Qed.

(** ** The forgetting curve *)

Lemma calculate_retention_defined (h s : R) :
  s <> 0 -> calculate_retention h s = Ok (exp (- h / (s * 24))).
Proof.
  intros Hs. unfold calculate_retention, py_div.
  destruct (Req_dec_T (s * 24) 0) as [Hz | _]; [lra | reflexivity].
Qed.

Lemma calculate_retention_zero (h : R) :
  calculate_retention h 0 = Raise ZeroDivisionError.
Proof.
  unfold calculate_retention, py_div.
  destruct (Req_dec_T (0 * 24) 0) as [_ | Hz]; [reflexivity | lra].
Qed.

Lemma calculate_retention_inv (h s r : R) :
  calculate_retention h s = Ok r -> s <> 0 /\ r = exp (- h / (s * 24)).
Proof.
  intros Hr. destruct (Req_dec_T s 0) as [-> | Hs].
  - rewrite calculate_retention_zero in Hr. discriminate.
  - rewrite (calculate_retention_defined h s Hs) in Hr.
    split; [exact Hs | congruence].
Qed.

(** The exponent [- h / (s * 24)] falls as [h] grows, and rises with [s]
    when [h] is positive. *)
Lemma exponent_decreasing_in_hours (h h' s : R) :
  0 < s -> h < h' -> - h' / (s * 24) < - h / (s * 24).
Proof.
  intros Hs Hh. unfold Rdiv.
  apply Rmult_lt_compat_r; [apply Rinv_0_lt_compat; lra | lra].
Qed.

Lemma exponent_increasing_in_strength (h s s' : R) :
  0 < h -> 0 < s -> s < s' -> - h / (s * 24) < - h / (s' * 24).
Proof.
  intros Hh Hs Hss. unfold Rdiv.
  assert (Hinv : / (s' * 24) < / (s * 24)).
  { apply Rinv_lt_contravar; [|lra].
    apply Rmult_lt_0_compat; lra. }
  rewrite <- !Ropp_mult_distr_l. apply Ropp_lt_contravar.
  apply Rmult_lt_compat_l; assumption.
Qed.

Lemma calculate_retention_at_zero (s : R) :
  s <> 0 -> calculate_retention 0 s = Ok 1.
Proof.
  intros Hs. rewrite calculate_retention_defined by exact Hs.
  replace (- 0 / (s * 24)) with 0 by (field; lra).
  rewrite exp_0. reflexivity.
Qed.

Lemma retention_one_day_strength_two :
  calculate_retention 24 2.0 = Ok (exp (- (1 / 2))).
Proof.
  rewrite calculate_retention_defined by lra.
  apply f_equal, f_equal. lra.
Qed.

(** C3 (amended).  For elapsed hours [h >= 0] and strength [s > 0] the
    retention is [exp (- h / (s * 24))]; it is 1 at [h = 0]; it is
    strictly decreasing in the elapsed time; it is strictly increasing in
    the strength when [h > 0]; and for 24 hours at strength 2.0 it is
    within 1e-4 of 0.6065. *)
Theorem calculate_retention_curve (h s : R) :
  0 <= h ->
  0 < s ->
  calculate_retention h s = Ok (exp (- h / (s * 24))) /\
  calculate_retention 0 s = Ok 1 /\
  (forall h' r r',
     h < h' ->
     calculate_retention h s = Ok r ->
     calculate_retention h' s = Ok r' ->
     r' < r) /\
  (0 < h ->
   forall s' r r',
     s < s' ->
     calculate_retention h s = Ok r ->
     calculate_retention h s' = Ok r' ->
     r < r') /\
  (exists r, calculate_retention 24 2.0 = Ok r /\ Rabs (r - 0.6065) < 0.0001).
Proof.
  intros Hh Hs. repeat split.
  - apply calculate_retention_defined. lra.
  - apply calculate_retention_at_zero. lra.
  - intros h' r r' Hlt Hr Hr'.
    apply calculate_retention_inv in Hr as [_ ->].
    apply calculate_retention_inv in Hr' as [_ ->].
    apply exp_increasing, exponent_decreasing_in_hours; assumption.
  - intros Hpos s' r r' Hlt Hr Hr'.
    apply calculate_retention_inv in Hr as [_ ->].
    apply calculate_retention_inv in Hr' as [_ ->].
    apply exp_increasing, exponent_increasing_in_strength; assumption.
  - exists (exp (- (1 / 2))). split.
    + exact retention_one_day_strength_two.
    + pose proof exp_neg_half_bounds as [Hlo Hhi].
      apply Rabs_def1; lra.
Qed.

Lemma calculate_retention_curve_witness :
  0 <= 24 /\ 0 < 2 /\ calculate_retention 24 2 = Ok (exp (- 24 / (2 * 24))).
Proof.
  split; [lra|]. split; [lra|].
  exact (proj1 (calculate_retention_curve 24 2 ltac:(lra) ltac:(lra))).
Defined.

(** C3 as first stated fails in one point: at [h = 0] the retention is 1
    for every strength, so it is not strictly increasing in the strength
    over the whole range [h >= 0]. *)
Lemma calculate_retention_flat_at_zero :
  ~ (forall h s s' r r',
       0 <= h -> 0 < s -> s < s' ->
       calculate_retention h s = Ok r ->
       calculate_retention h s' = Ok r' ->
       r < r').
Proof.
  intros Hmono.
  assert (H1 : calculate_retention 0 1 = Ok 1)
    by (apply calculate_retention_at_zero; lra).
  assert (H2 : calculate_retention 0 2 = Ok 1)
    by (apply calculate_retention_at_zero; lra).
  pose proof (Hmono 0 1 2 1 1 ltac:(lra) ltac:(lra) ltac:(lra) H1 H2).
  lra.
Qed.

(** ** The retention of the sweep and the retention of the review *)

Lemma Rltb_true_iff (x y : R) : Rltb x y = true <-> x < y.
Proof.
  unfold Rltb. destruct (Rlt_dec x y) as [H | H]; split; intros H';
    try assumption; try reflexivity; try discriminate; contradiction.
Qed.

Lemma julian_hours (now last : R) :
  (JULIANDAY now - JULIANDAY last) * 24 = (now - last) / 3600.
Proof. unfold JULIANDAY. field. Qed.

Lemma sql_retention_calculate (now : R) (row : item) :
  sql_retention now row =
  null_on_error
    (calculate_retention (hours_since now row) (memory_strength row)).
Proof.
  unfold sql_retention, sql_div, calculate_retention, py_div, hours_since.
  rewrite julian_hours.
  destruct (Req_dec_T (memory_strength row * 24) 0); reflexivity.
Qed.

Lemma decay_where_true_iff (now : R) (row : item) :
  decay_where now row = true <->
  consolidation_state row <> "forgotten"%string /\
  importance row < 0.3 /\
  exists r,
    calculate_retention (hours_since now row) (memory_strength row) = Ok r /\
    r < 0.1.
Proof.
  unfold decay_where. rewrite sql_retention_calculate.
  rewrite !andb_true_iff, negb_true_iff, Rltb_true_iff.
  rewrite String.eqb_neq.
  destruct (calculate_retention (hours_since now row) (memory_strength row))
    as [r | e]; simpl.
  - rewrite Rltb_true_iff. split.
    + intros [[Hst Himp] Hr]. repeat split; try assumption.
      exists r. split; [reflexivity | exact Hr].
    + intros [Hst [Himp [r' [Heq Hr]]]]. injection Heq as <-.
      repeat split; assumption.
  - split.
    + intros [_ Hf]. discriminate.
    + intros [_ [_ [r [Heq _]]]]. discriminate.
Qed.

(** C9.  The arithmetic written out in the sweep's query yields the value
    of [calculate_retention] at the elapsed hours and strength of the row
    (NULL exactly where [calculate_retention] raises), and the sweep
    selects a row exactly when the row is not forgotten, its importance is
    below 0.3 and that retention is below 0.1. *)
Theorem sweep_retention_is_calculate_retention (now : R) (row : item) :
  sql_retention now row =
  null_on_error
    (calculate_retention (hours_since now row) (memory_strength row)) /\
  (decay_where now row = true <->
   consolidation_state row <> "forgotten"%string /\
   importance row < 0.3 /\
   exists r,
     calculate_retention (hours_since now row) (memory_strength row) = Ok r /\
     r < 0.1).
Proof.
  split.
  - apply sql_retention_calculate.
  - apply decay_where_true_iff.
Qed.

(** ** Tables and rows *)

Lemma fetchone_id (rows : list item) (k : Z) (row : item) :
  fetchone rows k = Some row -> In row rows /\ item_id row = k.
Proof.
  unfold fetchone. intros Hfind. apply find_some in Hfind as [Hin Hid].
  split; [exact Hin | apply Z.eqb_eq; exact Hid].
Qed.

Lemma fetchone_map (g : item -> item) (rows : list item) (k : Z) :
  (forall row, item_id (g row) = item_id row) ->
  fetchone (map g rows) k = option_map g (fetchone rows k).
Proof.
  intros Hid. unfold fetchone.
  induction rows as [| row rows IH]; simpl; [reflexivity|].
  rewrite Hid. destruct (item_id row =? k)%Z; [reflexivity | exact IH].
Qed.

Lemma set_review_id (s : R) (r : Z) (now next : R) (row : item) :
  item_id (set_review s r now next row) = item_id row.
Proof. reflexivity. Qed.

Lemma fetchone_update (set : item -> item) (k k' : Z) (rows : list item) :
  (forall row, item_id (set row) = item_id row) ->
  fetchone (update_where_id set k rows) k' =
  if (k' =? k)%Z then option_map set (fetchone rows k')
  else fetchone rows k'.
Proof.
  intros Hid. unfold update_where_id. rewrite fetchone_map.
  - destruct (fetchone rows k') as [row |] eqn:Hrow; simpl.
    + apply fetchone_id in Hrow as [_ Hk]. rewrite Hk.
      destruct (k' =? k)%Z; reflexivity.
    + destruct (k' =? k)%Z; reflexivity.
  - intros row. destruct (item_id row =? k)%Z; [apply Hid | reflexivity].
Qed.

Lemma table_of_with_table (conn : store) (t t' : string)
  (rows : list item) :
  table_of (with_table conn t rows) t' =
  if Bool.eqb (is_events t) (is_events t') then rows else table_of conn t'.
Proof.
  unfold table_of, with_table.
  destruct (is_events t), (is_events t'); reflexivity.
Qed.

Lemma table_of_insert_log (conn : store) (entry : review_log_entry)
  (t : string) :
  table_of (insert_log conn entry) t = table_of conn t.
Proof. unfold table_of, insert_log. destruct (is_events t); reflexivity. Qed.

(** ** One review *)

Lemma review_item_not_found (now : R) (conn : store) (t : string)
  (k q : Z) :
  fetchone (table_of conn t) k = None ->
  review_item now conn t k q = (conn, Ok ItemNotFound).
Proof. intros Hnone. unfold review_item. rewrite Hnone. reflexivity. Qed.

Lemma review_item_written (now : R) (conn : store) (t : string) (k q : Z)
  (row : item) (R0 next : R) :
  fetchone (table_of conn t) k = Some row ->
  calculate_retention (hours_since now row) (memory_strength row) = Ok R0 ->
  get_next_interval
    (snd (strengthen (memory_strength row) (repetition_count row) R0 q)) q
    = Ok next ->
  review_item now conn t k q =
  (review_written now conn t k q row R0 next,
   _ <- py_index quality_labels q ;;
   Ok (ReviewRecorded (memory_strength row)
         (fst (strengthen (memory_strength row) (repetition_count row) R0 q))
         next)).
Proof.
  intros Hrow Hret Hnext. unfold review_item, review_written.
  rewrite Hrow. fold (hours_since now row). rewrite Hret.
  destruct (strengthen (memory_strength row) (repetition_count row) R0 q)
    as [new_strength new_rep_count].
  simpl in Hnext. rewrite Hnext. reflexivity.
Qed.

(** A call either leaves the database as it was or performs both writes. *)
Lemma review_item_store (now : R) (conn : store) (t : string) (k q : Z) :
  fst (review_item now conn t k q) = conn \/
  exists row R0 next,
    fetchone (table_of conn t) k = Some row /\
    calculate_retention (hours_since now row) (memory_strength row) = Ok R0 /\
    get_next_interval
      (snd (strengthen (memory_strength row) (repetition_count row) R0 q)) q
      = Ok next /\
    fst (review_item now conn t k q) = review_written now conn t k q row R0 next.
Proof.
  destruct (fetchone (table_of conn t) k) as [row |] eqn:Hrow.
  2:{ left. rewrite review_item_not_found by exact Hrow. reflexivity. }
  destruct (calculate_retention (hours_since now row) (memory_strength row))
    as [R0 | e] eqn:Hret.
  2:{ left. unfold review_item. rewrite Hrow.
      fold (hours_since now row). rewrite Hret. reflexivity. }
  destruct (get_next_interval
              (snd (strengthen (memory_strength row) (repetition_count row)
                      R0 q)) q) as [next | e] eqn:Hnext.
  - right. exists row, R0, next. repeat split; try assumption.
    rewrite (review_item_written now conn t k q row R0 next) by assumption.
    reflexivity.
  - left. unfold review_item. rewrite Hrow.
    fold (hours_since now row). rewrite Hret.
    destruct (strengthen (memory_strength row) (repetition_count row) R0 q)
      as [new_strength new_rep_count].
    simpl in Hnext. rewrite Hnext. reflexivity.
Qed.

(** The row behind [(t', k')] after the two writes. *)
Lemma fetchone_review_written (now : R) (conn : store) (t : string)
  (k q : Z) (row : item) (R0 next : R) (t' : string) (k' : Z) :
  fetchone (table_of (review_written now conn t k q row R0 next) t') k' =
  if Bool.eqb (is_events t) (is_events t') && (k' =? k)%Z
  then option_map
         (set_review
            (fst (strengthen (memory_strength row) (repetition_count row)
                    R0 q))
            (snd (strengthen (memory_strength row) (repetition_count row)
                    R0 q))
            now (now + next * 3600))
         (fetchone (table_of conn t') k')
  else fetchone (table_of conn t') k'.
Proof.
  unfold review_written. rewrite table_of_insert_log, table_of_with_table.
  destruct (Bool.eqb (is_events t) (is_events t')) eqn:Hsame; simpl;
    [|reflexivity].
  rewrite fetchone_update by (intros; apply set_review_id).
  assert (Htab : table_of conn t = table_of conn t').
  { unfold table_of. apply Bool.eqb_prop in Hsame. rewrite Hsame.
    reflexivity. }
  rewrite Htab. reflexivity.
Qed.

Lemma review_log_with_table (conn : store) (t : string)
  (rows : list item) :
  review_log (with_table conn t rows) = review_log conn.
Proof. unfold with_table. destruct (is_events t); reflexivity. Qed.

(** What one call does to the row behind [(t', k')]: nothing, or the
    update computed from that very row. *)
Lemma review_item_row (now : R) (conn : store) (t : string) (k q : Z)
  (t' : string) (k' : Z) (row : item) :
  fetchone (table_of conn t') k' = Some row ->
  fetchone (table_of (fst (review_item now conn t k q)) t') k' = Some row \/
  exists R0 next,
    Bool.eqb (is_events t) (is_events t') = true /\
    k' = k /\
    calculate_retention (hours_since now row) (memory_strength row) = Ok R0 /\
    get_next_interval
      (snd (strengthen (memory_strength row) (repetition_count row) R0 q)) q
      = Ok next /\
    fetchone (table_of (fst (review_item now conn t k q)) t') k' =
    Some (set_review
            (fst (strengthen (memory_strength row) (repetition_count row)
                    R0 q))
            (snd (strengthen (memory_strength row) (repetition_count row)
                    R0 q))
            now (now + next * 3600) row).
Proof.
  intros Hrow.
  destruct (review_item_store now conn t k q)
    as [Hsame | [row0 [R0 [next [Hrow0 [Hret [Hnext Hw]]]]]]].
  { left. rewrite Hsame. exact Hrow. }
  rewrite Hw, fetchone_review_written.
  destruct (Bool.eqb (is_events t) (is_events t')) eqn:Htab; simpl;
    [|left; exact Hrow].
  destruct (k' =? k)%Z eqn:Hk; [|left; exact Hrow].
  apply Z.eqb_eq in Hk. subst k'.
  assert (Hrows : table_of conn t = table_of conn t').
  { unfold table_of. apply Bool.eqb_prop in Htab. rewrite Htab.
    reflexivity. }
  rewrite Hrows, Hrow in Hrow0. injection Hrow0 as <-.
  right. exists R0, next. rewrite Hrow. simpl. repeat split; assumption.
Qed.

Lemma hours_since_nonneg (now : R) (row : item) :
  COALESCE (last_reviewed_at row) (created_at row) <= now ->
  0 <= hours_since now row.
Proof. intros Hlast. unfold hours_since. lra. Qed.

Lemma retention_in_unit (h s R0 : R) :
  0 <= h -> 0 < s -> calculate_retention h s = Ok R0 -> 0 < R0 <= 1.
Proof.
  intros Hh Hs Hret. apply calculate_retention_inv in Hret as [_ ->].
  split; [apply exp_pos|]. apply exp_nonpos_le_1.
  assert (Hq : 0 <= h / (s * 24)).
  { apply Rmult_le_pos; [exact Hh|]. left. apply Rinv_0_lt_compat. lra. }
  unfold Rdiv in *. rewrite <- Ropp_mult_distr_l. lra.
Qed.

(** ** The strength update *)

Lemma strengthen_success (s : R) (r : Z) (R0 : R) (q : Z) :
  (3 <= q)%Z ->
  strengthen s r R0 q =
  (Rmin 10.0 (s * (1.1 + IZR (q - 3) * 0.1) * (1 + (1 - R0) * 0.5)),
   (r + 1)%Z).
Proof.
  intros Hq. unfold strengthen.
  destruct (3 <=? q)%Z eqn:Hge; [|apply Z.leb_gt in Hge; lia].
  f_equal. f_equal. f_equal. lra.
Qed.

Lemma strengthen_failure (s : R) (r : Z) (R0 : R) (q : Z) :
  (q < 3)%Z -> strengthen s r R0 q = (Rmax 0.5 (s * 0.7), 0%Z).
Proof.
  intros Hq. unfold strengthen.
  destruct (3 <=? q)%Z eqn:Hge; [apply Z.leb_le in Hge; lia | reflexivity].
Qed.

Lemma strength_multiplier_ge (q : Z) :
  (3 <= q)%Z -> 1.1 <= 1.1 + IZR (q - 3) * 0.1.
Proof.
  intros Hq. assert (0 <= IZR (q - 3)) by (apply IZR_le; lia). lra.
Qed.

(** With a retention of at most 1 the new strength stays in [0.5, 10]; it
    is no smaller than the old one after a success and no larger after a
    failure. *)
Lemma strengthen_bounds (s : R) (r : Z) (R0 : R) (q : Z) :
  0.5 <= s <= 10 ->
  R0 <= 1 ->
  0.5 <= fst (strengthen s r R0 q) <= 10 /\
  ((3 <= q)%Z -> s <= fst (strengthen s r R0 q)) /\
  ((q < 3)%Z -> fst (strengthen s r R0 q) <= s).
Proof.
  intros [Hlo Hhi] HR.
  destruct (Z_lt_le_dec q 3) as [Hq | Hq].
  - rewrite strengthen_failure by exact Hq. simpl.
    unfold Rmax. destruct (Rle_dec 0.5 (s * 0.7)); repeat split;
      try lra; intros; try lia; lra.
  - rewrite strengthen_success by exact Hq. simpl.
    pose proof (strength_multiplier_ge q Hq) as Hm.
    set (m := 1.1 + IZR (q - 3) * 0.1) in *.
    set (b := 1 + (1 - R0) * 0.5).
    assert (Hb : 1 <= b) by (unfold b; lra).
    assert (Hsm : s <= s * m) by nra.
    assert (Hsmb : s * m <= s * m * b) by nra.
    unfold Rmin. destruct (Rle_dec 10.0 (s * m * b)); repeat split;
      try lra; intros; try lia; lra.
Qed.

Lemma get_next_interval_defined (r q : Z) :
  (q < 3 \/ 0 <= r)%Z -> exists next, get_next_interval r q = Ok next.
Proof.
  intros Hrq. destruct (Z_lt_le_dec q 3) as [Hq | Hq].
  - exists 0.33. apply get_next_interval_failed. exact Hq.
  - destruct Hrq as [Hlt | Hr]; [lia|].
    destruct (py_index_in_range INTERVALS (Z.min (r + 1) 9))
      as [rung [Hnth _]].
    { rewrite INTERVALS_length. lia. }
    eexists. apply (get_next_interval_success r q rung Hr Hq Hnth).
Qed.

Lemma strengthen_rep_count (s : R) (r : Z) (R0 : R) (q : Z) :
  (0 <= r)%Z ->
  (q < 3 \/ 0 <= snd (strengthen s r R0 q))%Z.
Proof.
  intros Hr. destruct (Z_lt_le_dec q 3) as [Hq | Hq]; [left; exact Hq|].
  right. rewrite strengthen_success by exact Hq. simpl. lia.
Qed.

(** A review of an existing row with a computable retention and a
    repetition count of at least 0 performs the update. *)
Lemma review_item_updates (now : R) (conn : store) (t : string) (k q : Z)
  (row : item) (R0 : R) :
  fetchone (table_of conn t) k = Some row ->
  calculate_retention (hours_since now row) (memory_strength row) = Ok R0 ->
  (0 <= repetition_count row)%Z ->
  exists next,
    fetchone (table_of (fst (review_item now conn t k q)) t) k =
    Some (set_review
            (fst (strengthen (memory_strength row) (repetition_count row)
                    R0 q))
            (snd (strengthen (memory_strength row) (repetition_count row)
                    R0 q))
            now (now + next * 3600) row) /\
    review_log (fst (review_item now conn t k q)) =
    review_log conn ++ [mk_log t k R0 q (hours_since now row)].
Proof.
  intros Hrow Hret Hrep.
  destruct (get_next_interval_defined
              (snd (strengthen (memory_strength row) (repetition_count row)
                      R0 q)) q) as [next Hnext].
  { apply strengthen_rep_count. exact Hrep. }
  exists next.
  rewrite (review_item_written now conn t k q row R0 next) by assumption.
  simpl. split.
  - rewrite fetchone_review_written, Bool.eqb_reflx, Z.eqb_refl, Hrow.
    reflexivity.
  - unfold review_written. simpl. rewrite review_log_with_table.
    reflexivity.
Qed.

(** C1.  For a row of strength [s] and repetition count [r >= 0] whose
    retention at review time is [R0]: a review of quality at least 3
    stores the strength [min 10.0 (s * (1.1 + (quality - 3) * 0.1) *
    (1 + (1 - R0) * 0.5))] and the repetition count [r + 1]; a review of
    quality below 3 stores the strength [max 0.5 (s * 0.7)] and the
    repetition count 0.  For [s = 2.0], [r = 2], 24 hours since the last
    review and quality 5, [R0] is within 1e-4 of 0.6065, the new strength
    is 3.11 to two decimals and the new repetition count is 3. *)
Theorem review_item_strength_update (now : R) (conn : store) (t : string)
  (k quality : Z) (row : item) (R0 : R) :
  fetchone (table_of conn t) k = Some row ->
  calculate_retention (hours_since now row) (memory_strength row) = Ok R0 ->
  (0 <= repetition_count row)%Z ->
  exists row',
    fetchone (table_of (fst (review_item now conn t k quality)) t) k
      = Some row' /\
    ((3 <= quality)%Z ->
     memory_strength row' =
       Rmin 10.0
         (memory_strength row * (1.1 + IZR (quality - 3) * 0.1)
          * (1 + (1 - R0) * 0.5)) /\
     repetition_count row' = (repetition_count row + 1)%Z) /\
    ((quality < 3)%Z ->
     memory_strength row' = Rmax 0.5 (memory_strength row * 0.7) /\
     repetition_count row' = 0%Z) /\
    (memory_strength row = 2.0 ->
     repetition_count row = 2%Z ->
     hours_since now row = 24 ->
     quality = 5%Z ->
     Rabs (R0 - 0.6065) < 0.0001 /\
     Rabs (memory_strength row' - 3.11) < 0.005 /\
     repetition_count row' = 3%Z).
Proof.
  intros Hrow Hret Hrep.
  destruct (review_item_updates now conn t k quality row R0 Hrow Hret Hrep)
    as [next [Hrow' _]].
  eexists. split; [exact Hrow'|]. simpl. split; [|split].
  - intros Hq. rewrite strengthen_success by exact Hq. simpl.
    split; reflexivity.
  - intros Hq. rewrite strengthen_failure by exact Hq. simpl.
    split; reflexivity.
  - intros Hs Hr Hh ->. rewrite strengthen_success by lia. simpl.
    rewrite Hs, Hr, Hh in *.
    rewrite retention_one_day_strength_two in Hret. injection Hret as <-.
    pose proof exp_neg_half_bounds as [Hlo Hhi].
    split; [apply Rabs_def1; lra|]. split; [|reflexivity].
    unfold Rmin.
    destruct (Rle_dec 10.0
                (2.0 * (1.1 + 2 * 0.1) * (1 + (1 - exp (- (1 / 2))) * 0.5)));
      apply Rabs_def1; lra.
Qed.

Lemma sample_event_retention :
  calculate_retention (hours_since 86400 sample_event)
    (memory_strength sample_event) = Ok (exp (- (1 / 2))).
Proof.
  unfold hours_since, sample_event. simpl.
  rewrite calculate_retention_defined by lra.
  apply f_equal, f_equal. lra.
Qed.

Lemma review_item_strength_update_witness :
  exists row',
    fetchone
      (table_of (fst (review_item 86400 sample_store "events" 1 5)) "events")
      1 = Some row' /\
    repetition_count row' = 3%Z.
Proof.
  destruct (review_item_strength_update 86400 sample_store "events" 1 5
              sample_event (exp (- (1 / 2))))
    as [row' [Hrow' [Hsucc _]]].
  - reflexivity.
  - exact sample_event_retention.
  - simpl. lia.
  - exists row'. split; [exact Hrow'|].
    destruct (Hsucc ltac:(lia)) as [_ Hrep]. exact Hrep.
Defined.

(** C10.  For a row with strength in [0.5, 10.0] whose last review (or
    creation) is not after the clock reading: a review of quality at
    least 3 never lowers the strength, a review of quality below 3 never
    raises it. *)
Theorem review_item_strength_direction (now : R) (conn : store)
  (t : string) (k quality : Z) (row : item) :
  fetchone (table_of conn t) k = Some row ->
  0.5 <= memory_strength row <= 10.0 ->
  COALESCE (last_reviewed_at row) (created_at row) <= now ->
  exists row',
    fetchone (table_of (fst (review_item now conn t k quality)) t) k
      = Some row' /\
    ((3 <= quality)%Z -> memory_strength row <= memory_strength row') /\
    ((quality < 3)%Z -> memory_strength row' <= memory_strength row).
Proof.
  intros Hrow Hs Hlast.
  destruct (review_item_row now conn t k quality t k row Hrow)
    as [Hsame | [R0 [next [_ [_ [Hret [_ Hrow']]]]]]].
  - exists row. split; [exact Hsame|]. split; intros _; lra.
  - eexists. split; [exact Hrow'|]. simpl.
    assert (HR : 0 < R0 <= 1).
    { apply (retention_in_unit (hours_since now row) (memory_strength row));
        [apply hours_since_nonneg; exact Hlast | lra | exact Hret]. }
    destruct (strengthen_bounds (memory_strength row) (repetition_count row)
                R0 quality ltac:(lra) ltac:(lra)) as [_ [Hup Hdown]].
    split; assumption.
Qed.

Lemma review_item_strength_direction_witness :
  exists row',
    fetchone
      (table_of (fst (review_item 86400 sample_store "events" 1 5)) "events")
      1 = Some row' /\
    memory_strength sample_event <= memory_strength row'.
Proof.
  destruct (review_item_strength_direction 86400 sample_store "events" 1 5
              sample_event)
    as [row' [Hrow' [Hup _]]].
  - reflexivity.
  - simpl. lra.
  - simpl. lra.
  - exists row'. split; [exact Hrow'|]. apply Hup. lia.
Defined.

(** ** The sweep, row by row *)

Lemma process_decay_dry_run (now_select now_update : R) (conn : store) :
  fst (process_decay now_select now_update conn true) = conn.
Proof.
  unfold process_decay.
  destruct (filter (decay_where now_select) (events conn)); reflexivity.
Qed.

Lemma process_decay_lessons (now_select now_update : R) (conn : store)
  (dry_run : bool) :
  lessons (fst (process_decay now_select now_update conn dry_run))
    = lessons conn /\
  review_log (fst (process_decay now_select now_update conn dry_run))
    = review_log conn.
Proof.
  unfold process_decay.
  destruct (filter (decay_where now_select) (events conn));
    [split; reflexivity|].
  destruct dry_run; split; reflexivity.
Qed.

(** What a sweep does to the row behind [(t, k)]: nothing, or, for an
    event in apply mode, the change of state alone. *)
Lemma process_decay_row (now_select now_update : R) (conn : store)
  (dry_run : bool) (t : string) (k : Z) (row : item) :
  fetchone (table_of conn t) k = Some row ->
  fetchone
    (table_of (fst (process_decay now_select now_update conn dry_run)) t) k
    = Some row \/
  (is_events t = true /\ dry_run = false /\
   fetchone
     (table_of (fst (process_decay now_select now_update conn dry_run)) t) k
     = Some (set_forgotten row)).
Proof.
  intros Hrow. unfold process_decay.
  destruct (filter (decay_where now_select) (events conn)) as [| c cs];
    [left; exact Hrow|].
  destruct dry_run; [left; exact Hrow|].
  unfold table_of in *. simpl.
  destruct (is_events t); [|left; exact Hrow].
  rewrite fetchone_map, Hrow.
  - simpl.
    destruct (existsb (Z.eqb (item_id row))
                (map item_id
                   (filter (decay_where now_update) (events conn))));
      [right; repeat split; reflexivity | left; reflexivity].
  - intros r.
    destruct (existsb (Z.eqb (item_id r))
                (map item_id
                   (filter (decay_where now_update) (events conn))));
      reflexivity.
Qed.

(** ** Sequences of reviews and sweeps *)

Lemma run_cons (conn : store) (o : op) (ops : list op) :
  run conn (o :: ops) = run (step conn o) ops.
Proof. reflexivity. Qed.

(** The invariant of a row that C5 rests on: strength in range and a
    last-review time that the clock has reached. *)
Lemma step_keeps_strength (conn : store) (o : op) (t : string) (k : Z)
  (row : item) (clock : R) :
  fetchone (table_of conn t) k = Some row ->
  0.5 <= memory_strength row <= 10.0 ->
  COALESCE (last_reviewed_at row) (created_at row) <= clock ->
  clock <= clock_after clock o ->
  exists row',
    fetchone (table_of (step conn o) t) k = Some row' /\
    0.5 <= memory_strength row' <= 10.0 /\
    COALESCE (last_reviewed_at row') (created_at row')
      <= clock_after clock o.
Proof.
  intros Hrow Hs Hlast Hclock.
  destruct o as [now t0 k0 q | n1 n2 dry]; simpl in *.
  - destruct (review_item_row now conn t0 k0 q t k row Hrow)
      as [Hsame | [R0 [next [_ [_ [Hret [_ Hrow']]]]]]].
    + exists row. split; [exact Hsame|]. split; [exact Hs | lra].
    + eexists. split; [exact Hrow'|]. simpl.
      assert (HR : 0 < R0 <= 1).
      { apply (retention_in_unit (hours_since now row)
                 (memory_strength row));
          [apply hours_since_nonneg; lra | lra | exact Hret]. }
      destruct (strengthen_bounds (memory_strength row)
                  (repetition_count row) R0 q ltac:(lra) ltac:(lra))
        as [Hrange _].
      split; lra.
  - destruct (process_decay_row n1 n2 conn dry t k row Hrow)
      as [Hsame | [_ [_ Hforgot]]].
    + exists row. split; [exact Hsame|]. split; [exact Hs | lra].
    + eexists. split; [exact Hforgot|]. simpl. split; [exact Hs | lra].
Qed.

Lemma chronological_cons (clock : R) (o : op) (ops : list op) :
  chronological clock (o :: ops) ->
  clock <= clock_after clock o /\ chronological (clock_after clock o) ops.
Proof.
  destruct o; simpl; intros H; [exact H | split; [lra | exact H]].
Qed.

(** X29.  For a row whose strength starts in [0.5, 10.0] and whose last
    review (or creation) is not after the first clock reading: after any
    sequence of reviews and sweeps whose review clock readings never go
    back, the strength is still in [0.5, 10.0]. *)
Theorem strength_stays_in_range (ops : list op) (conn : store) (t : string)
  (k : Z) (row : item) (clock : R) :
  fetchone (table_of conn t) k = Some row ->
  0.5 <= memory_strength row <= 10.0 ->
  COALESCE (last_reviewed_at row) (created_at row) <= clock ->
  chronological clock ops ->
  exists row',
    fetchone (table_of (run conn ops) t) k = Some row' /\
    0.5 <= memory_strength row' <= 10.0.
Proof.
  revert conn row clock.
  induction ops as [| o ops IH]; intros conn row clock Hrow Hs Hlast Hchron.
  - exists row. split; assumption.
  - rewrite run_cons.
    apply chronological_cons in Hchron as [Hclock Hrest].
    destruct (step_keeps_strength conn o t k row clock Hrow Hs Hlast Hclock)
      as [row1 [Hrow1 [Hs1 Hlast1]]].
    exact (IH _ row1 _ Hrow1 Hs1 Hlast1 Hrest).
Qed.

Lemma strength_stays_in_range_witness :
  exists row',
    fetchone
      (table_of
         (run sample_store
            [Review 86400 "events" 1 5; Decay 90000 90000 false;
             Review 172800 "events" 1 0])
         "events") 1 = Some row' /\
    0.5 <= memory_strength row' <= 10.0.
Proof.
  apply (strength_stays_in_range
           [Review 86400 "events" 1 5; Decay 90000 90000 false;
            Review 172800 "events" 1 0]
           sample_store "events" 1 sample_event 0).
  - reflexivity.
  - simpl. lra.
  - simpl. lra.
  - simpl. repeat split; lra.
Defined.

Lemma planned_event_retention :
  calculate_retention (hours_since 0 planned_event)
    (memory_strength planned_event) = Ok (exp 2).
Proof.
  unfold hours_since, planned_event. simpl.
  rewrite calculate_retention_defined by lra.
  apply f_equal, f_equal. lra.
Qed.

Lemma exp_neg_one_bounds : 0.3678 < exp (- 1) < 0.3681.
Proof.
  pose proof (exp_neg_enclosure 1 3 ltac:(lra)) as [Hlo Hhi].
  cbn [Nat.mul Nat.add sum_f_R0] in Hlo, Hhi.
  unfold tg_alt, exp_term in Hlo, Hhi.
  repeat rewrite fact_simpl in Hlo, Hhi.
  repeat rewrite mult_INR in Hlo, Hhi.
  simpl in Hlo, Hhi.
  replace (exp (- 1)) with (exp (Ropp 1)) by (f_equal; lra).
  split; lra.
Qed.

Lemma exp_two_bounds : 7.38 < exp 2 < 7.40.
Proof.
  pose proof exp_neg_one_bounds as [Hlo Hhi].
  assert (Hprod : exp 2 * (exp (- 1) * exp (- 1)) = 1).
  { rewrite <- !exp_plus, <- exp_0. f_equal. lra. }
  pose proof (exp_pos 2) as Hpos.
  split; nra.
Qed.

(** C5.  The code breaks the claim.  An event of strength 0.5, which is
    in [0.5, 10.0], whose [occurred_at] lies one day ahead of the clock
    is reviewed with quality 3, a successful recall: the retention is
    [exp 2], the bonus is negative, and the strength that is stored is
    [0.5 * 1.1 * (1 + (1 - exp 2) * 0.5)], about -1.207, below the
    range. *)
Lemma strength_leaves_range_before_creation :
  fetchone (table_of planned_store "events") 1 = Some planned_event /\
  0.5 <= memory_strength planned_event <= 10.0 /\
  exists row',
    fetchone
      (table_of (run planned_store [Review 0 "events" 1 3]) "events") 1
      = Some row' /\
    memory_strength row' = 0.5 * 1.1 * (1 + (1 - exp 2) * 0.5) /\
    -1.21 < memory_strength row' < -1.20 /\
    memory_strength row' < 0.5.
Proof.
  split; [reflexivity|]. split; [simpl; lra|].
  destruct (review_item_updates 0 planned_store "events" 1 3 planned_event
              (exp 2) eq_refl planned_event_retention ltac:(simpl; lia))
    as [next [Hrow' _]].
  eexists. split; [exact Hrow'|].
  rewrite strengthen_success by lia. simpl.
  pose proof exp_two_bounds as [Hlo Hhi].
  assert (Hval : Rmin 10.0 (0.5 * (1.1 + 0 * 0.1) * (1 + (1 - exp 2) * 0.5))
                 = 0.5 * 1.1 * (1 + (1 - exp 2) * 0.5)).
  { rewrite Rmin_right by lra. lra. }
  rewrite Hval. repeat split; lra.
Qed.

(** ** The review log *)

Lemma review_log_review_written (now : R) (conn : store) (t : string)
  (k q : Z) (row : item) (R0 next : R) :
  review_log (review_written now conn t k q row R0 next) =
  review_log conn ++ [mk_log t k R0 q (hours_since now row)].
Proof.
  unfold review_written. simpl. rewrite review_log_with_table. reflexivity.
Qed.




(** ** Rejected requests *)

Lemma main_review_bad_quality (py_int : string -> result Z) (now : R)
  (conn : store) (review : string) (quality : Z) :
  ~ (0 <= quality <= 5)%Z ->
  main_review py_int now conn review quality = (conn, Raise SystemExit).
Proof.
  intros Hq. unfold main_review.
  destruct ((0 <=? quality) && (quality <=? 5))%Z eqn:Hin; [|reflexivity].
  apply andb_true_iff in Hin as [H0 H5].
  apply Z.leb_le in H0. apply Z.leb_le in H5. lia.
Qed.

Lemma main_review_bad_format (py_int : string -> result Z) (now : R)
  (conn : store) (review : string) (quality : Z) :
  List.length (split_colon review) <> 2%nat ->
  fst (main_review py_int now conn review quality) = conn.
Proof.
  intros Hlen. unfold main_review.
  destruct (negb ((0 <=? quality) && (quality <=? 5))%Z); [reflexivity|].
  destruct (split_colon review) as [| a [| b [| c rest]]]; try reflexivity.
  simpl in Hlen. lia.
Qed.

Lemma main_review_bad_id (py_int : string -> result Z) (now : R)
  (conn : store) (review : string) (quality : Z) (t id_text : string)
  (e : exn) :
  split_colon review = [t; id_text] ->
  py_int id_text = Raise e ->
  fst (main_review py_int now conn review quality) = conn.
Proof.
  intros Hsplit Hid. unfold main_review.
  destruct (negb ((0 <=? quality) && (quality <=? 5))%Z); [reflexivity|].
  rewrite Hsplit, Hid. reflexivity.
Qed.

Lemma main_review_calls_review_item (py_int : string -> result Z) (now : R)
  (conn : store) (review : string) (quality : Z) (t id_text : string)
  (k : Z) :
  (0 <= quality <= 5)%Z ->
  split_colon review = [t; id_text] ->
  py_int id_text = Ok k ->
  main_review py_int now conn review quality =
  review_item now conn t k quality.
Proof.
  intros Hq Hsplit Hid. unfold main_review.
  destruct ((0 <=? quality) && (quality <=? 5))%Z eqn:Hin.
  - simpl. rewrite Hsplit, Hid. reflexivity.
  - apply andb_false_iff in Hin as [H | H]; apply Z.leb_gt in H; lia.
Qed.

(** A table name other than ['events'] addresses [lessons]. *)
Lemma review_item_other_table (now : R) (conn : store) (t : string)
  (k q : Z) :
  is_events t = false ->
  table_of conn t = lessons conn /\
  events (fst (review_item now conn t k q)) = events conn /\
  lessons (fst (review_item now conn t k q)) =
  lessons (fst (review_item now conn "lessons" k q)).
Proof.
  intros Ht.
  assert (Htab : table_of conn t = lessons conn)
    by (unfold table_of; rewrite Ht; reflexivity).
  split; [exact Htab|].
  unfold review_item. rewrite Htab.
  change (table_of conn "lessons") with (lessons conn).
  destruct (fetchone (lessons conn) k) as [row |]; [|split; reflexivity].
  destruct (calculate_retention _ (memory_strength row)) as [R0 | e];
    [|split; reflexivity].
  destruct (strengthen (memory_strength row) (repetition_count row) R0 q)
    as [new_strength new_rep_count].
  destruct (get_next_interval new_rep_count q) as [next | e];
    [|split; reflexivity].
  unfold with_table. rewrite Ht. simpl. split; reflexivity.
Qed.

(** C7 (amended).  [review_item] writes nothing, neither to a row nor to
    the review log, when no row has the id.  [main] turns away, before
    any write, a quality outside 0..5, a reference that does not split at
    [':'] into exactly two parts, and an id that is no integer.  The
    table name is not checked: every name other than ['events'] is read
    as ['lessons']. *)
Theorem review_rejections (py_int : string -> result Z) (now : R)
  (conn : store) (review t : string) (k quality : Z) :
  (fetchone (table_of conn t) k = None ->
   review_item now conn t k quality = (conn, Ok ItemNotFound)) /\
  (~ (0 <= quality <= 5)%Z ->
   main_review py_int now conn review quality = (conn, Raise SystemExit)) /\
  (List.length (split_colon review) <> 2%nat ->
   fst (main_review py_int now conn review quality) = conn) /\
  (forall t' id_text e,
     split_colon review = [t'; id_text] ->
     py_int id_text = Raise e ->
     fst (main_review py_int now conn review quality) = conn) /\
  (is_events t = false ->
   table_of conn t = lessons conn /\
   events (fst (review_item now conn t k quality)) = events conn /\
   lessons (fst (review_item now conn t k quality)) =
   lessons (fst (review_item now conn "lessons" k quality))).
Proof.
  split; [|split; [|split; [|split]]].
  - apply review_item_not_found.
  - apply main_review_bad_quality.
  - apply main_review_bad_format.
  - intros t' id_text e. apply main_review_bad_id.
  - apply review_item_other_table.
Qed.

Lemma review_rejections_witness :
  review_item 0 sample_store "events" 2 4 = (sample_store, Ok ItemNotFound) /\
  main_review decimal_int 0 sample_store "events:1" 6
    = (sample_store, Raise SystemExit) /\
  fst (main_review decimal_int 0 sample_store "events" 4) = sample_store /\
  fst (main_review decimal_int 0 sample_store "events:one" 4) = sample_store.
Proof.
  split; [|split; [|split]].
  - apply (proj1 (review_rejections decimal_int 0 sample_store
                    "events:2" "events" 2 4)).
    reflexivity.
  - apply (proj1 (proj2 (review_rejections decimal_int 0 sample_store
                           "events:1" "events" 1 6))).
    lia.
  - apply (proj1 (proj2 (proj2 (review_rejections decimal_int 0 sample_store
                                  "events" "events" 1 4)))).
    simpl. lia.
  - apply (proj1 (proj2 (proj2 (proj2
             (review_rejections decimal_int 0 sample_store
                "events:one" "events" 1 4))))
             "events"%string "one"%string ValueError);
      reflexivity.
Defined.

Lemma faded_lesson_retention :
  calculate_retention (hours_since 3600 faded_lesson)
    (memory_strength faded_lesson) = Ok (exp (- (1 / 24))).
Proof.
  unfold hours_since, faded_lesson. simpl.
  rewrite calculate_retention_defined by lra.
  apply f_equal, f_equal. lra.
Qed.

(** C7 as first stated fails: ['facts'] names no table, yet the request
    [facts:1] with quality 4 is not rejected; it rewrites the lesson
    with id 1 and appends an entry to the review log. *)
Lemma review_item_unknown_table_writes :
  split_colon "facts:1" = ["facts"; "1"]%string /\
  review_log faded_store = [] /\
  List.length (review_log (fst (review_item 3600 faded_store "facts" 1 4)))
    = 1%nat /\
  fetchone (lessons faded_store) 1 = Some faded_lesson /\
  last_reviewed_at faded_lesson = None /\
  exists row',
    fetchone (lessons (fst (review_item 3600 faded_store "facts" 1 4))) 1
      = Some row' /\
    last_reviewed_at row' = Some 3600.
Proof.
  split; [reflexivity|]. split; [reflexivity|].
  destruct (review_item_updates 3600 faded_store "facts" 1 4 faded_lesson
              (exp (- (1 / 24))) eq_refl faded_lesson_retention
              ltac:(simpl; lia))
    as [next [Hrow' Hlog]].
  split; [rewrite Hlog; reflexivity|].
  split; [reflexivity|]. split; [reflexivity|].
  eexists. split; [exact Hrow' | reflexivity].
Qed.

(** [review_item] by itself does not check the quality: with quality 7
    it performs both writes and then raises [IndexError] at the label. *)
Lemma review_item_quality_unchecked :
  List.length
    (review_log (fst (review_item 3600 faded_store "lessons" 1 7))) = 1%nat /\
  snd (review_item 3600 faded_store "lessons" 1 7) = Raise IndexError.
Proof.
  destruct (get_next_interval_defined
              (snd (strengthen (memory_strength faded_lesson)
                      (repetition_count faded_lesson)
                      (exp (- (1 / 24))) 7)) 7)
    as [next Hnext].
  { apply strengthen_rep_count. simpl. lia. }
  rewrite (review_item_written 3600 faded_store "lessons" 1 7 faded_lesson
             (exp (- (1 / 24))) next eq_refl faded_lesson_retention Hnext).
  cbn [fst snd]. rewrite review_log_review_written. split; reflexivity.
Qed.

(** ** The sweep as a whole *)

Lemma unique_id (rows : list item) (a b : item) :
  NoDup (map item_id rows) ->
  In a rows -> In b rows -> item_id a = item_id b -> a = b.
Proof.
  induction rows as [| r rows IH]; simpl; intros Hnd Ha Hb Hid;
    [contradiction|].
  inversion Hnd as [| x xs Hnotin Hnd']; subst.
  destruct Ha as [-> | Ha], Hb as [-> | Hb].
  - reflexivity.
  - exfalso. apply Hnotin. rewrite Hid. apply in_map. exact Hb.
  - exfalso. apply Hnotin. rewrite <- Hid. apply in_map. exact Ha.
  - apply IH; assumption.
Qed.

(** With unique ids, [id IN (SELECT id ... WHERE p)] holds of a row
    exactly when [p] does. *)
Lemma id_in_selected (p : item -> bool) (rows : list item) (row : item) :
  NoDup (map item_id rows) ->
  In row rows ->
  existsb (Z.eqb (item_id row)) (map item_id (filter p rows)) = p row.
Proof.
  intros Hnd Hin. destruct (p row) eqn:Hp.
  - apply existsb_exists. exists (item_id row). split.
    + apply in_map. apply filter_In. split; assumption.
    + apply Z.eqb_refl.
  - apply not_true_is_false. intros Hex.
    apply existsb_exists in Hex as [x [Hx Heq]].
    apply Z.eqb_eq in Heq. subst x.
    apply in_map_iff in Hx as [r [Hid Hr]].
    apply filter_In in Hr as [Hr Hpr].
    assert (r = row) by (apply (unique_id rows); assumption).
    subst r. congruence.
Qed.

Lemma process_decay_no_candidates (now_select now_update : R)
  (conn : store) (dry_run : bool) :
  filter (decay_where now_select) (events conn) = [] ->
  process_decay now_select now_update conn dry_run = (conn, NoCandidates).
Proof. intros Hnone. unfold process_decay. rewrite Hnone. reflexivity. Qed.

Lemma process_decay_apply (now_select now_update : R) (conn : store) :
  NoDup (map item_id (events conn)) ->
  filter (decay_where now_select) (events conn) <> [] ->
  fst (process_decay now_select now_update conn false) =
  mk_store (map (forget_where now_update) (events conn)) (lessons conn)
    (review_log conn).
Proof.
  intros Hnd Hsome. unfold process_decay.
  destruct (filter (decay_where now_select) (events conn)) as [| c cs];
    [contradiction|].
  simpl. f_equal. apply map_ext_in. intros row Hin.
  rewrite id_in_selected by assumption. reflexivity.
Qed.

Lemma forget_where_none (now : R) (rows : list item) :
  filter (decay_where now) rows = [] ->
  map (forget_where now) rows = rows.
Proof.
  intros Hnone. rewrite <- (map_id rows) at 2.
  apply map_ext_in. intros row Hin. unfold forget_where.
  destruct (decay_where now row) eqn:Hp; [|reflexivity].
  assert (Hf : In row (filter (decay_where now) rows))
    by (apply filter_In; split; assumption).
  rewrite Hnone in Hf. contradiction.
Qed.

Lemma set_forgotten_marks (row : item) :
  marked_forgotten row (set_forgotten row).
Proof. unfold marked_forgotten. simpl. repeat split; reflexivity. Qed.

Lemma forget_where_swept (now : R) (rows : list item) :
  Forall2 (swept now) rows (map (forget_where now) rows).
Proof.
  induction rows as [| row rows IH]; simpl; constructor; [|exact IH].
  unfold swept, forget_where.
  destruct (decay_where now row); split; intros H; try discriminate;
    [apply set_forgotten_marks | reflexivity].
Qed.

(** C4 (amended).  The sweep reads and writes the [events] table only;
    [lessons] and the review log are never changed.  In dry-run mode it
    changes nothing.  In apply mode, with unique event ids: if the
    listing query finds no candidate nothing is changed; otherwise every
    event that satisfies [consolidation_state != 'forgotten' AND
    importance < 0.3 AND retention < 0.1] when the update runs gets the
    consolidation state ['forgotten'], with every other column kept, and
    every other event is left as it was.  When both statements see the
    same time, this holds of every apply run. *)
Theorem process_decay_spec (now_select now_update : R) (conn : store) :
  NoDup (map item_id (events conn)) ->
  fst (process_decay now_select now_update conn true) = conn /\
  lessons (fst (process_decay now_select now_update conn false))
    = lessons conn /\
  review_log (fst (process_decay now_select now_update conn false))
    = review_log conn /\
  (filter (decay_where now_select) (events conn) = [] ->
   fst (process_decay now_select now_update conn false) = conn) /\
  (filter (decay_where now_select) (events conn) <> [] ->
   events (fst (process_decay now_select now_update conn false))
     = map (forget_where now_update) (events conn)) /\
  (now_select = now_update ->
   events (fst (process_decay now_select now_update conn false))
     = map (forget_where now_update) (events conn)) /\
  (forall row,
     (decay_where now_update row = true <->
      consolidation_state row <> "forgotten"%string /\
      importance row < 0.3 /\
      exists r,
        calculate_retention (hours_since now_update row)
          (memory_strength row) = Ok r /\
        r < 0.1) /\
     (decay_where now_update row = true ->
      forget_where now_update row = set_forgotten row) /\
     (decay_where now_update row = false ->
      forget_where now_update row = row)) /\
  (filter (decay_where now_select) (events conn) <> [] ->
   Forall2
     (fun row row' =>
        (decay_where now_update row = true ->
         consolidation_state row' = "forgotten"%string /\
         item_id row' = item_id row /\
         summary row' = summary row /\
         importance row' = importance row /\
         memory_strength row' = memory_strength row /\
         repetition_count row' = repetition_count row /\
         last_reviewed_at row' = last_reviewed_at row /\
         created_at row' = created_at row /\
         next_review_at row' = next_review_at row /\
         retention_estimate row' = retention_estimate row) /\
        (decay_where now_update row = false -> row' = row))
     (events conn)
     (events (fst (process_decay now_select now_update conn false)))) /\
  (now_select = now_update ->
   Forall2 (swept now_update) (events conn)
     (events (fst (process_decay now_select now_update conn false)))) /\
  (forall row,
     consolidation_state (set_forgotten row) = "forgotten"%string /\
     marked_forgotten row (set_forgotten row)).
Proof.
  intros Hnd.
  assert (Hsame : now_select = now_update ->
    events (fst (process_decay now_select now_update conn false))
      = map (forget_where now_update) (events conn)).
  { intros <-.
    destruct (filter (decay_where now_select) (events conn)) as [| c cs]
      eqn:Hsel.
    + rewrite process_decay_no_candidates by exact Hsel.
      rewrite forget_where_none by exact Hsel. reflexivity.
    + rewrite process_decay_apply; [reflexivity | exact Hnd |].
      rewrite Hsel. discriminate. }
  split; [apply process_decay_dry_run|].
  split; [apply process_decay_lessons|].
  split; [apply process_decay_lessons|].
  split; [|split; [|split; [|split; [|split; [|split]]]]].
  - intros Hnone. rewrite process_decay_no_candidates by exact Hnone.
    reflexivity.
  - intros Hsome. rewrite process_decay_apply by assumption. reflexivity.
  - exact Hsame.
  - intros row. split; [apply decay_where_true_iff|].
    unfold forget_where. split; intros ->; reflexivity.
  - intros Hsome. rewrite process_decay_apply by assumption.
    cbn [fst events]. apply (forget_where_swept now_update).
  - intros Heq. rewrite (Hsame Heq). apply forget_where_swept.
  - intros row. split; [reflexivity | apply set_forgotten_marks].
Qed.

Lemma faded_retention (row : item) :
  last_reviewed_at row = None -> created_at row = 0 ->
  memory_strength row = 1 ->
  exists r,
    calculate_retention (hours_since 8640000 row) (memory_strength row)
      = Ok r /\ r < 0.1.
Proof.
  intros Hlast Hcreated Hs. unfold hours_since.
  rewrite Hlast, Hcreated, Hs. simpl.
  rewrite calculate_retention_defined by lra.
  eexists. split; [reflexivity|].
  match goal with
  | |- exp ?x < _ =>
    replace x with (Ropp 100) by (unfold COALESCE; field)
  end.
  apply (exp_neg_small 100). lra.
Qed.

Lemma faded_event_selected : decay_where 8640000 faded_event = true.
Proof.
  apply decay_where_true_iff. split; [discriminate|].
  split; [simpl; lra|]. apply faded_retention; reflexivity.
Qed.

Lemma faded_store_candidates :
  filter (decay_where 8640000) (events faded_store) = [faded_event].
Proof.
  change (events faded_store) with [faded_event]. cbn [filter].
  rewrite faded_event_selected. reflexivity.
Qed.

Lemma process_decay_spec_witness :
  NoDup (map item_id (events faded_store)) /\
  map consolidation_state
    (events (fst (process_decay 8640000 8640000 faded_store false)))
    = ["forgotten"%string] /\
  events (fst (process_decay 8640000 8640000 faded_store false))
    = [set_forgotten faded_event].
Proof.
  assert (Hnd : NoDup (map item_id (events faded_store))).
  { simpl. constructor; [simpl; tauto | constructor]. }
  split; [exact Hnd|].
  destruct (process_decay_spec 8640000 8640000 faded_store Hnd)
    as [_ [_ [_ [_ [_ [Hsame _]]]]]].
  rewrite (Hsame eq_refl). cbn [events faded_store map].
  unfold forget_where. rewrite faded_event_selected.
  split; reflexivity.
Defined.

(** C4 as first stated fails: the sweep does not run over every
    collection.  A lesson that is active, of importance 0.1 and of
    retention below 0.1 still has the state ['active'] after a sweep in
    apply mode that did give the like event the state ['forgotten']. *)
Lemma process_decay_passes_over_lessons :
  lessons faded_store = [faded_lesson] /\
  consolidation_state faded_lesson = "active"%string /\
  importance faded_lesson < 0.3 /\
  (exists r,
     calculate_retention (hours_since 8640000 faded_lesson)
       (memory_strength faded_lesson) = Ok r /\ r < 0.1) /\
  map consolidation_state (events faded_store) = ["active"%string] /\
  map consolidation_state
    (events (fst (process_decay 8640000 8640000 faded_store false)))
    = ["forgotten"%string] /\
  map consolidation_state
    (lessons (fst (process_decay 8640000 8640000 faded_store false)))
    = ["active"%string] /\
  lessons (fst (process_decay 8640000 8640000 faded_store false))
    = [faded_lesson].
Proof.
  split; [reflexivity|]. split; [reflexivity|]. split; [simpl; lra|].
  split; [apply faded_retention; reflexivity|].
  split; [reflexivity|].
  rewrite process_decay_apply.
  - cbn [events lessons faded_store map]. unfold forget_where.
    rewrite faded_event_selected. repeat split; reflexivity.
  - simpl. constructor; [simpl; tauto | constructor].
  - rewrite faded_store_candidates. discriminate.
Qed.

(** ** The consolidation state *)

Lemma one_way_refl (row : item) : one_way row row.
Proof. split; [reflexivity | left; reflexivity]. Qed.

Lemma one_way_trans (a b c : item) :
  one_way a b -> one_way b c -> one_way a c.
Proof.
  intros [Hid1 Hs1] [Hid2 Hs2]. split; [congruence|].
  destruct Hs2 as [Hs2 | Hs2]; [|right; exact Hs2].
  rewrite Hs2. exact Hs1.
Qed.

Lemma one_way_rows_refl (rows : list item) : Forall2 one_way rows rows.
Proof. induction rows; constructor; [apply one_way_refl | assumption]. Qed.

Lemma one_way_rows_trans (xs ys zs : list item) :
  Forall2 one_way xs ys -> Forall2 one_way ys zs -> Forall2 one_way xs zs.
Proof.
  intros Hxy. revert zs.
  induction Hxy as [| x y xs ys Hxy Hrest IH]; intros zs Hyz;
    inversion Hyz; subst; constructor.
  - eapply one_way_trans; eassumption.
  - apply IH. assumption.
Qed.

Lemma one_way_rows_map (g : item -> item) (rows : list item) :
  (forall row, one_way row (g row)) -> Forall2 one_way rows (map g rows).
Proof.
  intros Hg. induction rows; simpl; constructor; [apply Hg | assumption].
Qed.

Lemma one_way_forgotten (row row' : item) :
  one_way row row' ->
  consolidation_state row = "forgotten"%string ->
  consolidation_state row' = "forgotten"%string.
Proof. intros [_ [Hs | Hs]] Hf; congruence. Qed.

(** The update of a review keeps the state column of a table. *)
Lemma update_review_states (s : R) (r : Z) (now next : R) (k : Z)
  (rows : list item) :
  map consolidation_state (update_where_id (set_review s r now next) k rows)
  = map consolidation_state rows.
Proof.
  unfold update_where_id. rewrite map_map. apply map_ext. intros row.
  destruct (item_id row =? k)%Z; reflexivity.
Qed.

Lemma review_item_states (now : R) (conn : store) (t : string) (k q : Z) :
  map consolidation_state (events (fst (review_item now conn t k q)))
    = map consolidation_state (events conn) /\
  map consolidation_state (lessons (fst (review_item now conn t k q)))
    = map consolidation_state (lessons conn).
Proof.
  destruct (review_item_store now conn t k q)
    as [-> | [row [R0 [next [_ [_ [_ ->]]]]]]]; [split; reflexivity|].
  unfold review_written, insert_log, with_table, table_of.
  destruct (is_events t); simpl; rewrite update_review_states;
    split; reflexivity.
Qed.

Lemma review_item_one_way (now : R) (conn : store) (t : string) (k q : Z) :
  Forall2 one_way (events conn) (events (fst (review_item now conn t k q))).
Proof.
  destruct (review_item_store now conn t k q)
    as [-> | [row [R0 [next [_ [_ [_ ->]]]]]]]; [apply one_way_rows_refl|].
  unfold review_written, insert_log, with_table, table_of.
  destruct (is_events t); simpl; [|apply one_way_rows_refl].
  apply one_way_rows_map. intros r.
  destruct (item_id r =? k)%Z; [|apply one_way_refl].
  split; [reflexivity | left; reflexivity].
Qed.

Lemma process_decay_one_way (now_select now_update : R) (conn : store)
  (dry_run : bool) :
  Forall2 one_way (events conn)
    (events (fst (process_decay now_select now_update conn dry_run))).
Proof.
  unfold process_decay.
  destruct (filter (decay_where now_select) (events conn));
    [apply one_way_rows_refl|].
  destruct dry_run; [apply one_way_rows_refl|]. simpl.
  apply one_way_rows_map. intros r.
  destruct (existsb _ _); [|apply one_way_refl].
  split; [reflexivity | right; reflexivity].
Qed.

Lemma run_one_way (ops : list op) (conn : store) :
  Forall2 one_way (events conn) (events (run conn ops)) /\
  map consolidation_state (lessons (run conn ops))
    = map consolidation_state (lessons conn).
Proof.
  revert conn. induction ops as [| o ops IH]; intros conn.
  - split; [apply one_way_rows_refl | reflexivity].
  - rewrite run_cons. destruct (IH (step conn o)) as [Hev Hle]. split.
    + apply one_way_rows_trans with (2 := Hev).
      destruct o; simpl;
        [apply review_item_one_way | apply process_decay_one_way].
    + rewrite Hle. destruct o; simpl.
      * apply review_item_states.
      * f_equal. apply process_decay_lessons.
Qed.

(** C6.  A review never changes a consolidation state, in either table; a
    sweep in dry-run mode changes nothing; a sweep in apply mode changes
    a state only to ['forgotten'].  Over any sequence of reviews and
    sweeps every event keeps its state or becomes forgotten, so a
    forgotten event stays forgotten, and no lesson changes state. *)
Theorem consolidation_state_one_way (conn : store) (ops : list op)
  (now : R) (t : string) (k quality : Z) (now_select now_update : R) :
  map consolidation_state (events (fst (review_item now conn t k quality)))
    = map consolidation_state (events conn) /\
  map consolidation_state (lessons (fst (review_item now conn t k quality)))
    = map consolidation_state (lessons conn) /\
  fst (process_decay now_select now_update conn true) = conn /\
  Forall2 one_way (events conn)
    (events (fst (process_decay now_select now_update conn false))) /\
  Forall2 one_way (events conn) (events (run conn ops)) /\
  map consolidation_state (lessons (run conn ops))
    = map consolidation_state (lessons conn) /\
  (forall i row row',
     nth_error (events conn) i = Some row ->
     nth_error (events (run conn ops)) i = Some row' ->
     consolidation_state row = "forgotten"%string ->
     consolidation_state row' = "forgotten"%string).
Proof.
  split; [apply review_item_states|].
  split; [apply review_item_states|].
  split; [apply process_decay_dry_run|].
  split; [apply process_decay_one_way|].
  split; [apply run_one_way|].
  split; [apply run_one_way|].
  intros i row row' Hrow Hrow' Hf.
  destruct (run_one_way ops conn) as [Hall _].
  revert i Hrow Hrow'.
  induction Hall as [| x y xs ys Hxy Hrest IH]; intros [| i] Hrow Hrow';
    simpl in *; try discriminate.
  - injection Hrow as <-. injection Hrow' as <-.
    apply (one_way_forgotten x y); assumption.
  - apply (IH i); assumption.
Qed.

(** * Further properties of the interval ladder *)

Lemma py_index_negative {A : Type} (l : list A) (i : Z) (a : A) :
  (- Z.of_nat (List.length l) <= i < 0)%Z ->
  nth_error l (Z.to_nat (i + Z.of_nat (List.length l))) = Some a ->
  py_index l i = Ok a.
Proof.
  intros Hi Hnth. unfold py_index.
  destruct (i <? 0)%Z eqn:Hneg; [|apply Z.ltb_ge in Hneg; lia].
  destruct (i + Z.of_nat (List.length l) <? 0)%Z eqn:Hlow;
    [apply Z.ltb_lt in Hlow; lia|].
  destruct (Z.of_nat (List.length l) <=? i + Z.of_nat (List.length l))%Z
    eqn:Hbig; [apply Z.leb_le in Hbig; lia|].
  simpl. rewrite Hnth. reflexivity.
Qed.

Lemma py_index_outside {A : Type} (l : list A) (i : Z) :
  (i < - Z.of_nat (List.length l) \/ Z.of_nat (List.length l) <= i)%Z ->
  py_index l i = Raise IndexError.
Proof.
  intros Hi. unfold py_index.
  destruct (i <? 0)%Z eqn:Hneg.
  - apply Z.ltb_lt in Hneg.
    destruct (i + Z.of_nat (List.length l) <? 0)%Z eqn:Hlow;
      [reflexivity | apply Z.ltb_ge in Hlow; lia].
  - apply Z.ltb_ge in Hneg.
    destruct (i <? 0)%Z eqn:Hlow; [apply Z.ltb_lt in Hlow; lia|].
    destruct (Z.of_nat (List.length l) <=? i)%Z eqn:Hbig;
      [reflexivity | apply Z.leb_gt in Hbig; lia].
Qed.

Lemma scaled_ok (quality : Z) (m : result R) (rung : R) :
  m = Ok rung ->
  exists h,
    (base_interval <- m ;;
     if (quality =? 5)%Z then Ok (base_interval * 1.3)
     else if (quality =? 3)%Z then Ok (base_interval * 0.8)
     else Ok base_interval) = Ok h.
Proof.
  intros ->. simpl.
  destruct (quality =? 5)%Z; [eexists; reflexivity|].
  destruct (quality =? 3)%Z; eexists; reflexivity.
Qed.

(** X1.  [get_next_interval] raises, and then [IndexError], exactly for a
    quality of at least 3 with a repetition count below -11.  A count
    from -11 to -2 does not raise: the index [count + 1] is negative and
    is counted from the end of the ladder, so that -2 selects the last
    rung. *)
Theorem get_next_interval_index_error (repetition_count quality : Z) :
  (get_next_interval repetition_count quality = Raise IndexError <->
   (3 <= quality /\ repetition_count < -11)%Z) /\
  (forall e, get_next_interval repetition_count quality = Raise e ->
             e = IndexError) /\
  ((3 <= quality)%Z -> (-11 <= repetition_count <= -2)%Z ->
   exists rung,
     nth_error INTERVALS (Z.to_nat (repetition_count + 11)) = Some rung /\
     get_next_interval repetition_count quality =
     Ok (if (quality =? 5)%Z then rung * 1.3
         else if (quality =? 3)%Z then rung * 0.8 else rung)) /\
  get_next_interval (-2) 4 = Ok 8760.
Proof.
  assert (Hwrap : forall r q,
    (3 <= q)%Z -> (-11 <= r <= -2)%Z ->
    exists rung,
      nth_error INTERVALS (Z.to_nat (r + 11)) = Some rung /\
      get_next_interval r q =
      Ok (if (q =? 5)%Z then rung * 1.3
          else if (q =? 3)%Z then rung * 0.8 else rung)).
  { intros r q Hq Hr.
    destruct (nth_error INTERVALS (Z.to_nat (r + 11))) as [rung |] eqn:Hnth.
    2:{ apply nth_error_None in Hnth. rewrite INTERVALS_length in Hnth. lia. }
    exists rung. split; [reflexivity|]. unfold get_next_interval.
    destruct (q <? 3)%Z eqn:Hlt; [apply Z.ltb_lt in Hlt; lia|].
    rewrite INTERVALS_length. change (Z.of_nat 10 - 1)%Z with 9%Z.
    rewrite (py_index_negative INTERVALS _ rung).
    - simpl. destruct (q =? 5)%Z; [reflexivity|].
      destruct (q =? 3)%Z; reflexivity.
    - rewrite INTERVALS_length. lia.
    - rewrite INTERVALS_length.
      replace (Z.min (r + 1) 9 + Z.of_nat 10)%Z with (r + 11)%Z by lia.
      exact Hnth. }
  assert (Hcases :
    (3 <= quality /\ repetition_count < -11)%Z /\
    get_next_interval repetition_count quality = Raise IndexError \/
    ~ (3 <= quality /\ repetition_count < -11)%Z /\
    exists h, get_next_interval repetition_count quality = Ok h).
  { destruct (Z_lt_le_dec quality 3) as [Hq | Hq].
    { right. split; [lia|]. exists 0.33.
      apply get_next_interval_failed. exact Hq. }
    destruct (Z_lt_le_dec repetition_count (-11)) as [Hr | Hr].
    - left. split; [lia|]. unfold get_next_interval.
      destruct (quality <? 3)%Z eqn:Hlt; [apply Z.ltb_lt in Hlt; lia|].
      rewrite py_index_outside; [reflexivity|].
      rewrite INTERVALS_length. lia.
    - right. split; [lia|].
      destruct (Z_lt_le_dec repetition_count (-1)) as [Hneg | Hpos].
      + destruct (Hwrap repetition_count quality Hq ltac:(lia))
          as [rung [_ ->]]. eexists. reflexivity.
      + destruct (Z.eq_dec repetition_count (-1)) as [-> | Hne].
        * unfold get_next_interval.
          destruct (quality <? 3)%Z eqn:Hlt; [apply Z.ltb_lt in Hlt; lia|].
          change (Z.min (-1 + 1) (Z.of_nat (List.length INTERVALS) - 1))
            with 0%Z.
          apply scaled_ok with (rung := 0.33).
          apply py_index_nonneg; [lia | reflexivity].
        * apply get_next_interval_defined. right. lia. }
  split; [|split; [|split]].
  - destruct Hcases as [[Hc Hraise] | [Hc [h Hok]]]; split; intros H.
    + exact Hc.
    + exact Hraise.
    + rewrite Hok in H. discriminate.
    + contradiction.
  - intros e He.
    destruct Hcases as [[_ Hraise] | [_ [h Hok]]]; congruence.
  - apply Hwrap.
  - destruct (Hwrap (-2)%Z 4%Z ltac:(lia) ltac:(lia)) as [rung [Hnth ->]].
    simpl in Hnth. injection Hnth as <-. reflexivity.
Qed.

Lemma INTERVALS_sorted : StronglySorted Rle INTERVALS.
Proof.
  unfold INTERVALS.
  repeat (constructor; [| repeat (constructor; try lra)]).
  constructor.
Qed.

Lemma sorted_nth_error (l : list R) (i j : nat) (a b : R) :
  StronglySorted Rle l ->
  (i <= j)%nat ->
  nth_error l i = Some a -> nth_error l j = Some b -> a <= b.
Proof.
  intros Hsorted. revert i j.
  induction Hsorted as [| x l Hl IH Hall]; intros i j Hij Ha Hb.
  - destruct i; discriminate.
  - destruct i as [| i], j as [| j]; simpl in *.
    + injection Ha as <-. injection Hb as <-. lra.
    + injection Ha as <-. apply nth_error_In in Hb.
      rewrite Forall_forall in Hall. apply Hall. exact Hb.
    + lia.
    + apply (IH i j); [lia | assumption | assumption].
Qed.

(** The rung a successful review of a row with a count of at least 0
    lands on lies between the second rung (1 hour) and the last (8760). *)
Lemma ladder_rung (r : Z) :
  (0 <= r)%Z ->
  exists rung,
    nth_error INTERVALS (Z.to_nat (Z.min (r + 1) 9)) = Some rung /\
    1 <= rung <= 8760.
Proof.
  intros Hr.
  destruct (py_index_in_range INTERVALS (Z.min (r + 1) 9))
    as [rung [Hnth _]].
  { rewrite INTERVALS_length. lia. }
  exists rung. split; [exact Hnth|]. split.
  - apply (sorted_nth_error INTERVALS 1 (Z.to_nat (Z.min (r + 1) 9)) 1 rung
             INTERVALS_sorted); [lia | reflexivity | exact Hnth].
  - apply (sorted_nth_error INTERVALS (Z.to_nat (Z.min (r + 1) 9)) 9 rung 8760
             INTERVALS_sorted); [lia | exact Hnth | reflexivity].
Qed.

Lemma ladder_rung_monotone (r r' : Z) (rung rung' : R) :
  (0 <= r <= r')%Z ->
  nth_error INTERVALS (Z.to_nat (Z.min (r + 1) 9)) = Some rung ->
  nth_error INTERVALS (Z.to_nat (Z.min (r' + 1) 9)) = Some rung' ->
  rung <= rung'.
Proof.
  intros Hr Hnth Hnth'.
  apply (sorted_nth_error INTERVALS _ _ rung rung' INTERVALS_sorted)
    with (2 := Hnth) (3 := Hnth').
  lia.
Qed.

Lemma get_next_interval_in_range (r q : Z) :
  (0 <= r)%Z ->
  exists h, get_next_interval r q = Ok h /\ 0.33 <= h <= 8760 * 1.3.
Proof.
  intros Hr. destruct (Z_lt_le_dec q 3) as [Hq | Hq].
  - exists 0.33. split; [apply get_next_interval_failed; exact Hq | lra].
  - destruct (ladder_rung r Hr) as [rung [Hnth Hrung]].
    eexists. split; [apply (get_next_interval_success _ _ rung Hr Hq Hnth)|].
    destruct (q =? 5)%Z; [lra|]. destruct (q =? 3)%Z; lra.
Qed.

(** X2.  For a repetition count of at least 0 an interval is always
    returned and lies between 0.33 hours and 8760 * 1.3 hours; from a
    count of 8 on the interval no longer grows. *)
Theorem get_next_interval_bounds (repetition_count quality : Z) :
  (0 <= repetition_count)%Z ->
  (exists h,
     get_next_interval repetition_count quality = Ok h /\
     0.33 <= h <= 8760 * 1.3) /\
  ((8 <= repetition_count)%Z ->
   get_next_interval repetition_count quality
     = get_next_interval 8 quality).
Proof.
  intros Hr. split.
  - apply get_next_interval_in_range. exact Hr.
  - intros H8. unfold get_next_interval.
    replace (Z.min (repetition_count + 1)
               (Z.of_nat (List.length INTERVALS) - 1))
      with (Z.min (8 + 1) (Z.of_nat (List.length INTERVALS) - 1));
      [reflexivity|].
    rewrite INTERVALS_length. lia.
Qed.

Lemma get_next_interval_bounds_witness :
  exists h, get_next_interval 40 3 = Ok h /\ 0.33 <= h <= 8760 * 1.3.
Proof.
  exact (proj1 (get_next_interval_bounds 40 3 ltac:(lia))).
Defined.

(** X3.  For counts of at least 0 the interval never shrinks when the
    repetition count grows, at any one quality. *)
Theorem get_next_interval_monotone (r r' quality : Z) :
  (0 <= r <= r')%Z ->
  exists h h',
    get_next_interval r quality = Ok h /\
    get_next_interval r' quality = Ok h' /\
    h <= h'.
Proof.
  intros Hr. destruct (Z_lt_le_dec quality 3) as [Hq | Hq].
  - exists 0.33, 0.33.
    repeat split; try (apply get_next_interval_failed; exact Hq). lra.
  - destruct (ladder_rung r ltac:(lia)) as [rung [Hnth Hrung]].
    destruct (ladder_rung r' ltac:(lia)) as [rung' [Hnth' Hrung']].
    pose proof (ladder_rung_monotone r r' rung rung' Hr Hnth Hnth') as Hle.
    eexists _, _. split; [|split].
    + apply (get_next_interval_success r quality rung); [lia | lia | exact Hnth].
    + apply (get_next_interval_success r' quality rung');
        [lia | lia | exact Hnth'].
    + destruct (quality =? 5)%Z; [lra|].
      destruct (quality =? 3)%Z; lra.
Qed.

Lemma get_next_interval_monotone_witness :
  exists h h',
    get_next_interval 2 5 = Ok h /\ get_next_interval 6 5 = Ok h' /\ h <= h'.
Proof.
  exact (get_next_interval_monotone 2 6 5 ltac:(lia)).
Defined.

(** X4.  At one repetition count of at least 0 the qualities order the
    intervals: every failed review (quality below 3) gets 0.33 hours,
    which is less than the interval of quality 3, which is less than
    that of quality 4, which is less than that of quality 5; a quality
    above 5 is treated as quality 4. *)
Theorem get_next_interval_quality_order (repetition_count : Z) :
  (0 <= repetition_count)%Z ->
  exists h3 h4 h5,
    get_next_interval repetition_count 3 = Ok h3 /\
    get_next_interval repetition_count 4 = Ok h4 /\
    get_next_interval repetition_count 5 = Ok h5 /\
    (forall quality, (quality < 3)%Z ->
       get_next_interval repetition_count quality = Ok 0.33) /\
    (forall quality, (5 < quality)%Z ->
       get_next_interval repetition_count quality = Ok h4) /\
    0.33 < h3 /\ h3 < h4 /\ h4 < h5.
Proof.
  intros Hr.
  destruct (ladder_rung repetition_count Hr) as [rung [Hnth Hrung]].
  exists (rung * 0.8), rung, (rung * 1.3).
  split; [|split; [|split; [|split; [|split; [|split]]]]].
  - apply (get_next_interval_success _ 3 rung Hr ltac:(lia) Hnth).
  - apply (get_next_interval_success _ 4 rung Hr ltac:(lia) Hnth).
  - apply (get_next_interval_success _ 5 rung Hr ltac:(lia) Hnth).
  - intros quality Hq. apply get_next_interval_failed. exact Hq.
  - intros quality Hq.
    rewrite (get_next_interval_success _ quality rung Hr ltac:(lia) Hnth).
    destruct (quality =? 5)%Z eqn:H5; [apply Z.eqb_eq in H5; lia|].
    destruct (quality =? 3)%Z eqn:H3; [apply Z.eqb_eq in H3; lia|].
    reflexivity.
  - lra.
  - lra.
Qed.

Lemma get_next_interval_quality_order_witness :
  exists h3 h4 h5,
    get_next_interval 0 3 = Ok h3 /\
    get_next_interval 0 4 = Ok h4 /\
    get_next_interval 0 5 = Ok h5 /\
    0.33 < h3 /\ h3 < h4 /\ h4 < h5.
Proof.
  destruct (get_next_interval_quality_order 0 ltac:(lia))
    as [h3 [h4 [h5 [H3 [H4 [H5 [_ [_ Hord]]]]]]]].
  exists h3, h4, h5. repeat split; try assumption; apply Hord.
Defined.

(** * Further properties of the forgetting curve *)

Lemma exp_le_1_iff (x : R) : exp x <= 1 <-> x <= 0.
Proof.
  split; [|apply exp_nonpos_le_1].
  intros Hexp. destruct (Rle_lt_dec x 0) as [Hx | Hx]; [exact Hx|].
  apply exp_increasing in Hx. rewrite exp_0 in Hx. lra.
Qed.

Lemma exponent_sign (h s : R) :
  s <> 0 -> (- h / (s * 24) <= 0 <-> 0 <= h * s).
Proof.
  intros Hs.
  assert (Hsq : 0 < s * s) by nra.
  assert (Heq : - h / (s * 24) = - (h * s) * / (s * s * 24))
    by (field; lra).
  rewrite Heq.
  assert (Hinv : 0 < / (s * s * 24)) by (apply Rinv_0_lt_compat; lra).
  split; intros H; nra.
Qed.

(** X5.  [calculate_retention] raises [ZeroDivisionError] at strength 0.
    When the strength is not 0 and elapsed hours and strength do not
    have opposite signs it returns a value in (0, 1].  Whenever it
    returns a value, the strength is not 0 and the value is at most 1
    exactly when hours and strength do not have opposite signs: the
    range of the docstring fails for a last review in the future. *)
Theorem calculate_retention_range (h s : R) :
  calculate_retention h 0 = Raise ZeroDivisionError /\
  (s <> 0 -> 0 <= h * s ->
   exists r, calculate_retention h s = Ok r /\ 0 < r <= 1) /\
  (forall r,
     calculate_retention h s = Ok r ->
     s <> 0 /\ (r <= 1 <-> 0 <= h * s)).
Proof.
  split; [apply calculate_retention_zero|]. split.
  - intros Hs Hsign. exists (exp (- h / (s * 24))).
    split; [apply calculate_retention_defined; exact Hs|].
    split; [apply exp_pos|].
    apply exp_le_1_iff. apply exponent_sign; assumption.
  - intros r Hr. apply calculate_retention_inv in Hr as [Hs ->].
    split; [exact Hs|].
    rewrite exp_le_1_iff. apply exponent_sign. exact Hs.
Qed.



Lemma ln_tenth : ln 0.1 = - ln 10.
Proof.
  replace 0.1 with (/ 10) by lra. apply ln_Rinv. lra.
Qed.

(** The retention falls below the sweep's threshold 0.1 exactly when
    more than [s * 24 * ln 10] hours have passed. *)
Lemma retention_below_threshold (h s r : R) :
  0 < s ->
  calculate_retention h s = Ok r ->
  (r < 0.1 <-> s * 24 * ln 10 < h).
Proof.
  intros Hs Hr. apply calculate_retention_inv in Hr as [_ ->].
  assert (Hten : 0.1 = exp (- ln 10)).
  { rewrite <- ln_tenth. symmetry. apply exp_ln. lra. }
  rewrite Hten.
  assert (Hq : - h / (s * 24) < - ln 10 <-> s * 24 * ln 10 < h).
  { assert (Hinv : 0 < / (s * 24)) by (apply Rinv_0_lt_compat; lra).
    assert (Heq : h = h / (s * 24) * (s * 24)) by (field; lra).
    unfold Rdiv in *. rewrite <- Ropp_mult_distr_l.
    split; intros H; nra. }
  rewrite <- Hq. split.
  - apply exp_lt_inv.
  - apply exp_increasing.
Qed.

(** X7.  The strength is the time constant of the curve, in days: after
    [s * 24] hours the retention is [exp (-1)], and it is below 0.1
    exactly when more than [s * 24 * ln 10] hours have passed. *)
Theorem calculate_retention_time_constant (h s r : R) :
  0 < s ->
  calculate_retention h s = Ok r ->
  calculate_retention (s * 24) s = Ok (exp (- 1)) /\
  (r < 0.1 <-> s * 24 * ln 10 < h).
Proof.
  intros Hs Hr. split.
  - rewrite calculate_retention_defined by lra.
    apply f_equal, f_equal. field. lra.
  - apply retention_below_threshold; assumption.
Qed.

Lemma calculate_retention_time_constant_witness :
  calculate_retention (2.0 * 24) 2.0 = Ok (exp (- 1)).
Proof.
  exact (proj1 (calculate_retention_time_constant 24 2.0 _ ltac:(lra)
                  retention_one_day_strength_two)).
Defined.

(** * Further properties of a review *)

Lemma Forall2_map_self {A : Type} (P : A -> A -> Prop) (g : A -> A)
  (l : list A) :
  (forall a, P a (g a)) -> Forall2 P l (map g l).
Proof.
  intros Hg. induction l; simpl; constructor; [apply Hg | assumption].
Qed.

Lemma Forall2_same {A : Type} (P : A -> A -> Prop) (l : list A) :
  (forall a, P a a) -> Forall2 P l l.
Proof. intros HP. induction l; constructor; [apply HP | assumption]. Qed.

Lemma review_written_tables (now : R) (conn : store) (t : string) (k q : Z)
  (row : item) (R0 next : R) :
  table_of (review_written now conn t k q row R0 next) t =
    update_where_id
      (set_review
         (fst (strengthen (memory_strength row) (repetition_count row) R0 q))
         (snd (strengthen (memory_strength row) (repetition_count row) R0 q))
         now (now + next * 3600))
      k (table_of conn t) /\
  (is_events t = true ->
   lessons (review_written now conn t k q row R0 next) = lessons conn) /\
  (is_events t = false ->
   events (review_written now conn t k q row R0 next) = events conn).
Proof.
  unfold review_written. split; [|split].
  - rewrite table_of_insert_log, table_of_with_table, Bool.eqb_reflx.
    reflexivity.
  - intros Ht. unfold with_table. rewrite Ht. reflexivity.
  - intros Ht. unfold with_table. rewrite Ht. reflexivity.
Qed.

(** X8.  A review of [(t, k)] leaves the other table as it was; in its
    own table it leaves every row with another id as it was, and in the
    rows it rewrites it keeps the id, the summary, the importance, the
    creation time and the consolidation state. *)
Theorem review_item_frame (now : R) (conn : store) (t : string)
  (k quality : Z) :
  (is_events t = true ->
   lessons (fst (review_item now conn t k quality)) = lessons conn) /\
  (is_events t = false ->
   events (fst (review_item now conn t k quality)) = events conn) /\
  Forall2
    (fun row row' =>
       fixed_columns row' = fixed_columns row /\
       consolidation_state row' = consolidation_state row /\
       (item_id row <> k -> row' = row))
    (table_of conn t)
    (table_of (fst (review_item now conn t k quality)) t).
Proof.
  destruct (review_item_store now conn t k quality)
    as [-> | [row [R0 [next [_ [_ [_ ->]]]]]]].
  - split; [reflexivity|]. split; [reflexivity|].
    apply Forall2_same. intros a. repeat split; reflexivity.
  - destruct (review_written_tables now conn t k quality row R0 next)
      as [-> [Hles Hev]].
    split; [exact Hles|]. split; [exact Hev|].
    unfold update_where_id. apply Forall2_map_self. intros a.
    destruct (item_id a =? k)%Z eqn:Hk.
    + repeat split; try reflexivity.
      intros Hne. apply Z.eqb_eq in Hk. contradiction.
    + repeat split; reflexivity.
Qed.

(** The update of an existing row, with the interval that was computed. *)
Lemma review_item_recorded (now : R) (conn : store) (t : string) (k q : Z)
  (row : item) (R0 : R) :
  fetchone (table_of conn t) k = Some row ->
  calculate_retention (hours_since now row) (memory_strength row) = Ok R0 ->
  (0 <= repetition_count row)%Z ->
  exists next,
    get_next_interval
      (snd (strengthen (memory_strength row) (repetition_count row) R0 q)) q
      = Ok next /\
    0.33 <= next <= 8760 * 1.3 /\
    review_item now conn t k q =
    (review_written now conn t k q row R0 next,
     _ <- py_index quality_labels q ;;
     Ok (ReviewRecorded (memory_strength row)
           (fst (strengthen (memory_strength row) (repetition_count row)
                   R0 q))
           next)).
Proof.
  intros Hrow Hret Hrep.
  assert (Hnew :
    (0 <= snd (strengthen (memory_strength row) (repetition_count row)
                 R0 q))%Z).
  { unfold strengthen. destruct (3 <=? q)%Z; simpl; lia. }
  destruct (get_next_interval_in_range _ q Hnew) as [next [Hnext Hrange]].
  exists next. split; [exact Hnext|]. split; [exact Hrange|].
  apply review_item_written; assumption.
Qed.

(** X9.  A recorded review stamps the row: [last_reviewed_at] becomes the
    clock reading, [retention_estimate] becomes 1, and [next_review_at]
    becomes the clock reading plus the interval that [get_next_interval]
    gives for the new repetition count, which is at least 0.33 hours
    (1188 seconds) later. *)
Theorem review_item_schedule (now : R) (conn : store) (t : string)
  (k quality : Z) (row : item) (R0 : R) :
  fetchone (table_of conn t) k = Some row ->
  calculate_retention (hours_since now row) (memory_strength row) = Ok R0 ->
  (0 <= repetition_count row)%Z ->
  exists row' next,
    fetchone (table_of (fst (review_item now conn t k quality)) t) k
      = Some row' /\
    get_next_interval
      (if (3 <=? quality)%Z then repetition_count row + 1 else 0)%Z quality
      = Ok next /\
    last_reviewed_at row' = Some now /\
    retention_estimate row' = 1 /\
    next_review_at row' = Some (now + next * 3600) /\
    now + 1188 <= now + next * 3600.
Proof.
  intros Hrow Hret Hrep.
  destruct (review_item_recorded now conn t k quality row R0 Hrow Hret Hrep)
    as [next [Hnext [Hrange Hrev]]].
  eexists _, next. rewrite Hrev. cbn [fst].
  rewrite fetchone_review_written, Bool.eqb_reflx, Z.eqb_refl, Hrow.
  split; [reflexivity|]. split.
  - rewrite <- Hnext. f_equal. unfold strengthen.
    destruct (3 <=? quality)%Z; reflexivity.
  - simpl. repeat split; try reflexivity. lra.
Qed.

Lemma review_item_schedule_witness :
  exists row' next,
    fetchone
      (table_of (fst (review_item 86400 sample_store "events" 1 5)) "events")
      1 = Some row' /\
    last_reviewed_at row' = Some 86400 /\
    next_review_at row' = Some (86400 + next * 3600).
Proof.
  destruct (review_item_schedule 86400 sample_store "events" 1 5
              sample_event (exp (- (1 / 2))) eq_refl sample_event_retention
              ltac:(simpl; lia))
    as [row' [next [Hrow' [_ [Hlast [_ [Hnext _]]]]]]].
  exists row', next. repeat split; assumption.
Defined.

(** X10.  One call writes all or nothing.  Either the database is left
    exactly as it was; or the row behind the id has been rewritten, with
    [last_reviewed_at] the clock reading, [retention_estimate] 1, a
    [next_review_at] and the new strength and repetition count, and the
    review log has grown by exactly one entry, which carries the table
    name, the id and the quality of the call, the elapsed hours and the
    retention computed from them.  So no row is rewritten without a log
    entry and no entry is logged without the row rewritten. *)
Theorem review_item_all_or_nothing (now : R) (conn : store) (t : string)
  (k quality : Z) :
  fst (review_item now conn t k quality) = conn \/
  exists row row' entry,
    fetchone (table_of conn t) k = Some row /\
    fetchone (table_of (fst (review_item now conn t k quality)) t) k
      = Some row' /\
    last_reviewed_at row' = Some now /\
    retention_estimate row' = 1 /\
    (exists next, next_review_at row' = Some (now + next * 3600)) /\
    (memory_strength row', repetition_count row') =
      strengthen (memory_strength row) (repetition_count row)
        (retention_before entry) quality /\
    review_log (fst (review_item now conn t k quality))
      = review_log conn ++ [entry] /\
    log_source_table entry = t /\
    log_source_id entry = k /\
    log_quality entry = quality /\
    time_since_last_review_hours entry = hours_since now row /\
    calculate_retention (hours_since now row) (memory_strength row)
      = Ok (retention_before entry).
Proof.
  destruct (review_item_store now conn t k quality)
    as [Hsame | [row [R0 [next [Hrow [Hret [_ Hw]]]]]]]; [left; exact Hsame|].
  right. exists row.
  exists (set_review
            (fst (strengthen (memory_strength row) (repetition_count row)
                    R0 quality))
            (snd (strengthen (memory_strength row) (repetition_count row)
                    R0 quality))
            now (now + next * 3600) row).
  exists (mk_log t k R0 quality (hours_since now row)).
  rewrite Hw, review_log_review_written, fetchone_review_written.
  rewrite Bool.eqb_reflx, Z.eqb_refl, Hrow.
  split; [reflexivity|]. split; [reflexivity|]. simpl.
  split; [reflexivity|]. split; [reflexivity|].
  split; [exists next; reflexivity|].
  split; [symmetry; apply surjective_pairing|].
  split; [reflexivity|]. repeat split; try reflexivity. exact Hret.
Qed.

(** * Further properties of sequences of operations *)

Lemma step_review_log (conn : store) (o : op) :
  exists suffix,
    review_log (step conn o) = review_log conn ++ suffix /\
    (List.length suffix <= if is_review o then 1 else 0)%nat.
Proof.
  destruct o as [now t k q | n1 n2 dry]; simpl.
  - destruct (review_item_store now conn t k q)
      as [-> | [row [R0 [next [_ [_ [_ ->]]]]]]].
    + exists []. rewrite app_nil_r. split; [reflexivity | simpl; lia].
    + rewrite review_log_review_written. eexists. split; [reflexivity|].
      simpl. lia.
  - exists []. rewrite app_nil_r. split; [|simpl; lia].
    apply process_decay_lessons.
Qed.

(** X11.  The review log is append-only: after any sequence of reviews
    and sweeps the old log is a prefix of the new one, and the log has
    grown by at most one entry for each review; sweeps log nothing. *)
Theorem review_log_append_only (ops : list op) (conn : store) :
  exists suffix,
    review_log (run conn ops) = review_log conn ++ suffix /\
    (List.length suffix <= List.length (filter is_review ops))%nat.
Proof.
  revert conn. induction ops as [| o ops IH]; intros conn.
  - exists []. rewrite app_nil_r. split; [reflexivity | simpl; lia].
  - rewrite run_cons.
    destruct (step_review_log conn o) as [s1 [Hs1 Hl1]].
    destruct (IH (step conn o)) as [s2 [Hs2 Hl2]].
    exists (s1 ++ s2). rewrite Hs2, Hs1, app_assoc.
    split; [reflexivity|]. rewrite length_app. simpl.
    destruct (is_review o); simpl in *; lia.
Qed.

Lemma update_review_fixed (s : R) (r : Z) (now next : R) (k : Z)
  (rows : list item) :
  map fixed_columns (update_where_id (set_review s r now next) k rows)
  = map fixed_columns rows.
Proof.
  unfold update_where_id. rewrite map_map. apply map_ext. intros row.
  destruct (item_id row =? k)%Z; reflexivity.
Qed.

Lemma step_fixed_columns (conn : store) (o : op) :
  map fixed_columns (events (step conn o)) = map fixed_columns (events conn)
  /\
  map fixed_columns (lessons (step conn o))
    = map fixed_columns (lessons conn).
Proof.
  destruct o as [now t k q | n1 n2 dry]; simpl.
  - destruct (review_item_store now conn t k q)
      as [-> | [row [R0 [next [_ [_ [_ ->]]]]]]]; [split; reflexivity|].
    unfold review_written, insert_log, with_table, table_of.
    destruct (is_events t); simpl; rewrite update_review_fixed;
      split; reflexivity.
  - split; [|f_equal; apply process_decay_lessons].
    unfold process_decay.
    destruct (filter (decay_where n1) (events conn)); [reflexivity|].
    destruct dry; [reflexivity|]. simpl.
    rewrite map_map. apply map_ext. intros row.
    destruct (existsb _ _); reflexivity.
Qed.

(** X12.  No sequence of reviews and sweeps deletes, inserts or reorders
    a row of [events] or [lessons], and none changes an id, a summary, an
    importance or a creation time. *)
Theorem rows_are_kept (ops : list op) (conn : store) :
  map fixed_columns (events (run conn ops)) = map fixed_columns (events conn)
  /\
  map fixed_columns (lessons (run conn ops))
    = map fixed_columns (lessons conn) /\
  List.length (events (run conn ops)) = List.length (events conn) /\
  List.length (lessons (run conn ops)) = List.length (lessons conn).
Proof.
  assert (Hcols :
    map fixed_columns (events (run conn ops))
      = map fixed_columns (events conn) /\
    map fixed_columns (lessons (run conn ops))
      = map fixed_columns (lessons conn)).
  { revert conn. induction ops as [| o ops IH]; intros conn.
    - split; reflexivity.
    - rewrite run_cons. destruct (IH (step conn o)) as [Hev Hle].
      destruct (step_fixed_columns conn o) as [Hev1 Hle1].
      split; congruence. }
  destruct Hcols as [Hev Hle]. split; [exact Hev|]. split; [exact Hle|].
  split.
  - apply (f_equal (@List.length _)) in Hev.
    rewrite !length_map in Hev. exact Hev.
  - apply (f_equal (@List.length _)) in Hle.
    rewrite !length_map in Hle. exact Hle.
Qed.

(** X13.  A review of a row whose strength is 0 raises
    [ZeroDivisionError] and writes nothing. *)
Theorem review_item_zero_strength (now : R) (conn : store) (t : string)
  (k quality : Z) (row : item) :
  fetchone (table_of conn t) k = Some row ->
  memory_strength row = 0 ->
  review_item now conn t k quality = (conn, Raise ZeroDivisionError).
Proof.
  intros Hrow Hs. unfold review_item. rewrite Hrow, Hs.
  rewrite calculate_retention_zero. reflexivity.
Qed.

Lemma review_item_zero_strength_witness :
  review_item 3600 inert_store "events" 7 4
    = (inert_store, Raise ZeroDivisionError).
Proof.
  apply (review_item_zero_strength 3600 inert_store "events" 7 4 inert_event);
    reflexivity.
Defined.




Lemma pow_07_range (n : nat) : 0 < 0.7 ^ n <= 1.
Proof.
  induction n as [| n IH]; simpl; [lra | nra].
Qed.

Lemma pow_07_decreasing (n m : nat) : (n <= m)%nat -> 0.7 ^ m <= 0.7 ^ n.
Proof.
  induction 1 as [| m Hle IH]; [lra|].
  simpl. pose proof (pow_07_range m). nra.
Qed.

Lemma Rmax_floor_scaled (x c : R) :
  0 < c <= 1 -> Rmax 0.5 (Rmax 0.5 x * c) = Rmax 0.5 (x * c).
Proof.
  intros Hc. unfold Rmax.
  destruct (Rle_dec 0.5 x) as [Hx | Hx]; [reflexivity|].
  destruct (Rle_dec 0.5 (0.5 * c)), (Rle_dec 0.5 (x * c)); nra.
Qed.

(** One failed review of a row whose retention has been computed. *)
Lemma review_item_failed (now : R) (conn : store) (t : string) (k q : Z)
  (row : item) (R0 : R) :
  fetchone (table_of conn t) k = Some row ->
  calculate_retention (hours_since now row) (memory_strength row) = Ok R0 ->
  (q < 3)%Z ->
  exists row',
    fetchone (table_of (fst (review_item now conn t k q)) t) k = Some row' /\
    memory_strength row' = Rmax 0.5 (memory_strength row * 0.7) /\
    repetition_count row' = 0%Z /\
    last_reviewed_at row' = Some now.
Proof.
  intros Hrow Hret Hq.
  assert (Hnext :
    get_next_interval
      (snd (strengthen (memory_strength row) (repetition_count row) R0 q))
      q = Ok 0.33)
    by (apply get_next_interval_failed; exact Hq).
  rewrite (review_item_written now conn t k q row _ _ Hrow Hret Hnext).
  cbn [fst].
  rewrite fetchone_review_written, Bool.eqb_reflx, Z.eqb_refl, Hrow.
  eexists. split; [reflexivity|].
  rewrite strengthen_failure by exact Hq. simpl. repeat split; reflexivity.
Qed.

(** X15.  Consecutive failed reviews of one item, at clock readings that
    never go back and start no earlier than its last review or creation,
    multiply a strength of at least 0.5 by 0.7 each time down to the
    floor: after [n] of them the strength is [max 0.5 (s * 0.7 ^ n)], and
    the repetition count is 0 once one has happened.  From a strength of
    at most 10, nine failures reach the floor 0.5. *)
Theorem failed_reviews_reach_floor (reviews : list (R * Z)) (conn : store)
  (t : string) (k : Z) (row : item) (clock : R) :
  fetchone (table_of conn t) k = Some row ->
  0.5 <= memory_strength row ->
  COALESCE (last_reviewed_at row) (created_at row) <= clock ->
  chronological clock (reviews_of t k reviews) ->
  Forall (fun p => (snd p < 3)%Z) reviews ->
  exists row',
    fetchone (table_of (run conn (reviews_of t k reviews)) t) k = Some row' /\
    memory_strength row' =
      Rmax 0.5 (memory_strength row * 0.7 ^ List.length reviews) /\
    (reviews <> [] -> repetition_count row' = 0%Z) /\
    (memory_strength row <= 10 -> (9 <= List.length reviews)%nat ->
     memory_strength row' = 0.5).
Proof.
  intros Hrow Hs Hlast Hchron Hall.
  assert (Hmain : exists row',
    fetchone (table_of (run conn (reviews_of t k reviews)) t) k = Some row' /\
    memory_strength row' =
      Rmax 0.5 (memory_strength row * 0.7 ^ List.length reviews) /\
    (reviews <> [] -> repetition_count row' = 0%Z)).
  { revert conn row clock Hrow Hs Hlast Hchron.
    induction Hall as [| [now q] reviews Hq Hall IH];
      intros conn row clock Hrow Hs Hlast Hchron.
    - exists row. split; [exact Hrow|]. split; [|congruence].
      simpl. unfold Rmax. destruct (Rle_dec 0.5 (memory_strength row * 1));
        lra.
    - simpl in Hq. unfold reviews_of in Hchron |- *. simpl map in Hchron |- *.
      rewrite run_cons. fold (reviews_of t k reviews) in Hchron |- *.
      simpl in Hchron. destruct Hchron as [Hnow Hrest]. simpl step.
      assert (Hret := calculate_retention_defined (hours_since now row)
                        (memory_strength row) ltac:(lra)).
      destruct (review_item_failed now conn t k q row _ Hrow Hret Hq)
        as [row1 [Hrow1 [Hs1 [Hr1 Hl1]]]].
      assert (Hs1' : 0.5 <= memory_strength row1)
        by (rewrite Hs1; apply Rmax_l).
      assert (Hlast1 :
        COALESCE (last_reviewed_at row1) (created_at row1) <= now)
        by (rewrite Hl1; simpl; lra).
      destruct (IH _ row1 now Hrow1 Hs1' Hlast1 Hrest)
        as [row' [Hrow' [Hs' Hr']]].
      exists row'. split; [exact Hrow'|]. split.
      + rewrite Hs', Hs1. simpl List.length.
        rewrite Rmax_floor_scaled by apply pow_07_range.
        f_equal. simpl. ring.
      + intros _. destruct reviews as [| p reviews'].
        * simpl in Hrow'. rewrite Hrow1 in Hrow'. injection Hrow' as <-.
          exact Hr1.
        * apply Hr'. discriminate. }
  destruct Hmain as [row' [Hrow' [Hs' Hr']]].
  exists row'. split; [exact Hrow'|]. split; [exact Hs'|].
  split; [exact Hr'|].
  intros Hhi Hlen. rewrite Hs'.
  pose proof (pow_07_decreasing 9 (List.length reviews) Hlen) as Hpow.
  pose proof (pow_07_range (List.length reviews)) as Hpos.
  assert (H9 : 0.7 ^ 9 < 0.05) by (simpl; lra).
  unfold Rmax.
  destruct (Rle_dec 0.5 (memory_strength row * 0.7 ^ List.length reviews));
    nra.
Qed.

Lemma failed_reviews_reach_floor_witness :
  exists row',
    fetchone
      (table_of
         (run sample_store (reviews_of "events" 1 [(50, 0%Z); (100, 2%Z)]))
         "events") 1 = Some row' /\
    memory_strength row' = Rmax 0.5 (memory_strength sample_event * 0.7 ^ 2).
Proof.
  destruct (failed_reviews_reach_floor [(50, 0%Z); (100, 2%Z)] sample_store
              "events" 1 sample_event 0)
    as [row' [Hrow' [Hs' _]]].
  - reflexivity.
  - simpl. lra.
  - simpl. lra.
  - simpl. repeat split; lra.
  - repeat constructor; simpl; lia.
  - exists row'. split; [exact Hrow' | exact Hs'].
Defined.

Lemma step_repetition_count (conn : store) (o : op) (t : string) (k : Z)
  (row : item) :
  fetchone (table_of conn t) k = Some row ->
  (0 <= repetition_count row)%Z ->
  exists row',
    fetchone (table_of (step conn o) t) k = Some row' /\
    (0 <= repetition_count row'
       <= repetition_count row + (if is_review o then 1 else 0))%Z.
Proof.
  intros Hrow Hrep. destruct o as [now t0 k0 q | n1 n2 dry]; simpl.
  - destruct (review_item_row now conn t0 k0 q t k row Hrow)
      as [Hsame | [R0 [next [_ [_ [_ [_ Hrow']]]]]]].
    + exists row. split; [exact Hsame | lia].
    + eexists. split; [exact Hrow'|]. simpl.
      unfold strengthen. destruct (3 <=? q)%Z; simpl; lia.
  - destruct (process_decay_row n1 n2 conn dry t k row Hrow)
      as [Hsame | [_ [_ Hforgot]]].
    + exists row. split; [exact Hsame | lia].
    + eexists. split; [exact Hforgot|]. simpl. lia.
Qed.

(** X16.  A repetition count that starts at 0 or more never becomes
    negative, and it grows by at most one for each review of the
    sequence. *)
Theorem repetition_count_stays_nonneg (ops : list op) (conn : store)
  (t : string) (k : Z) (row : item) :
  fetchone (table_of conn t) k = Some row ->
  (0 <= repetition_count row)%Z ->
  exists row',
    fetchone (table_of (run conn ops) t) k = Some row' /\
    (0 <= repetition_count row'
       <= repetition_count row
          + Z.of_nat (List.length (filter is_review ops)))%Z.
Proof.
  revert conn row. induction ops as [| o ops IH]; intros conn row Hrow Hrep.
  - exists row. split; [exact Hrow | simpl; lia].
  - rewrite run_cons.
    destruct (step_repetition_count conn o t k row Hrow Hrep)
      as [row1 [Hrow1 Hrep1]].
    destruct (IH _ row1 Hrow1 ltac:(lia)) as [row' [Hrow' Hrep']].
    exists row'. split; [exact Hrow'|]. simpl.
    destruct (is_review o); simpl List.length; lia.
Qed.

Lemma repetition_count_stays_nonneg_witness :
  exists row',
    fetchone
      (table_of
         (run sample_store
            [Review 86400 "events" 1 5; Decay 90000 90000 false])
         "events") 1 = Some row' /\
    (0 <= repetition_count row')%Z.
Proof.
  destruct (repetition_count_stays_nonneg
              [Review 86400 "events" 1 5; Decay 90000 90000 false]
              sample_store "events" 1 sample_event eq_refl
              ltac:(simpl; lia))
    as [row' [Hrow' Hrep]].
  exists row'. split; [exact Hrow' | apply Hrep].
Defined.

(** * Further properties of the sweep *)

Lemma ln_10_above_2 : 2 < ln 10.
Proof.
  assert (Hexp : exp 2 < 10).
  { replace 2 with (1 + 1) by lra. rewrite exp_plus.
    pose proof exp_le_3 as H3. pose proof (exp_pos 1) as Hpos. nra. }
  rewrite <- (ln_exp 2). apply ln_increasing; [apply exp_pos | exact Hexp].
Qed.

(** For a row of positive strength the sweep's condition on the
    retention is a condition on the elapsed hours. *)
Lemma decay_where_hours (now : R) (row : item) :
  0 < memory_strength row ->
  (decay_where now row = true <->
   consolidation_state row <> "forgotten"%string /\
   importance row < 0.3 /\
   memory_strength row * 24 * ln 10 < hours_since now row).
Proof.
  intros Hs. rewrite decay_where_true_iff.
  assert (Hret := calculate_retention_defined (hours_since now row)
                    (memory_strength row) ltac:(lra)).
  pose proof (retention_below_threshold _ _ _ Hs Hret) as Hthr.
  split.
  - intros [Hst [Himp [r [Hr Hlt]]]]. rewrite Hret in Hr.
    injection Hr as <-. repeat split; try assumption.
    apply Hthr. exact Hlt.
  - intros [Hst [Himp Hh]]. repeat split; try assumption.
    eexists. split; [exact Hret | apply Hthr; exact Hh].
Qed.

Lemma decay_where_recent (now : R) (row : item) :
  0 < memory_strength row ->
  hours_since now row <= 48 * memory_strength row ->
  decay_where now row = false.
Proof.
  intros Hs Hh. apply not_true_is_false. intros Hsel.
  apply decay_where_hours in Hsel as [_ [_ Hlt]]; [|exact Hs].
  pose proof ln_10_above_2. nra.
Qed.

(** X19.  For a row of positive strength [s], the sweep selects it
    exactly when it is not forgotten, its importance is below 0.3 and
    more than [s * 24 * ln 10] hours have passed since its last review
    or, failing that, its creation; that is more than 48 hours for each
    unit of strength. *)
Theorem decay_where_horizon (now : R) (row : item) :
  0 < memory_strength row ->
  (decay_where now row = true <->
   consolidation_state row <> "forgotten"%string /\
   importance row < 0.3 /\
   memory_strength row * 24 * ln 10 < hours_since now row) /\
  (hours_since now row <= 48 * memory_strength row ->
   decay_where now row = false).
Proof.
  intros Hs. split; [apply decay_where_hours; exact Hs|].
  apply decay_where_recent. exact Hs.
Qed.

Lemma decay_where_horizon_witness :
  decay_where 3600 sample_event = false.
Proof.
  apply (proj2 (decay_where_horizon 3600 sample_event ltac:(simpl; lra))).
  unfold hours_since. simpl. lra.
Defined.

(** X18.  Eligibility lasts: a row of positive strength that the sweep
    selects at one time is selected at every later time, as long as the
    row is not changed. *)
Theorem decay_where_persists (now now' : R) (row : item) :
  0 < memory_strength row ->
  now <= now' ->
  decay_where now row = true ->
  decay_where now' row = true.
Proof.
  intros Hs Hle Hsel.
  apply decay_where_hours in Hsel as [Hst [Himp Hh]]; [|exact Hs].
  apply decay_where_hours; [exact Hs|]. repeat split; try assumption.
  unfold hours_since in *. lra.
Qed.

Lemma decay_where_persists_witness :
  decay_where 9000000 faded_event = true.
Proof.
  apply (decay_where_persists 8640000 9000000 faded_event).
  - simpl. lra.
  - lra.
  - exact faded_event_selected.
Defined.

Lemma filter_none {A : Type} (p : A -> bool) (l : list A) :
  (forall a, In a l -> p a = false) -> filter p l = [].
Proof.
  intros Hp. induction l as [| a l IH]; simpl; [reflexivity|].
  rewrite (Hp a) by (left; reflexivity).
  apply IH. intros b Hb. apply Hp. right. exact Hb.
Qed.

Lemma decay_where_forgotten (now : R) (row : item) :
  decay_where now (set_forgotten row) = false.
Proof. reflexivity. Qed.

(** After an apply run whose two statements see the same time no event
    satisfies the condition any more. *)
Lemma process_decay_leaves_none (now : R) (conn : store) :
  filter (decay_where now)
    (events (fst (process_decay now now conn false))) = [].
Proof.
  unfold process_decay.
  destruct (filter (decay_where now) (events conn)) as [| c cs] eqn:Hsel;
    [exact Hsel|].
  cbn [fst events]. apply filter_none. intros row' Hin.
  apply in_map_iff in Hin as [row [<- Hrow]].
  destruct (existsb (Z.eqb (item_id row)) (map item_id (c :: cs)))
    eqn:Hex; [apply decay_where_forgotten|].
  apply not_true_is_false. intros Hp.
  assert (Hin : existsb (Z.eqb (item_id row)) (map item_id (c :: cs))
                = true).
  { apply existsb_exists. exists (item_id row). split.
    - apply in_map. rewrite <- Hsel. apply filter_In. split; assumption.
    - apply Z.eqb_refl. }
  congruence.
Qed.

(** X17.  The sweep is idempotent: straight after an apply run whose two
    statements see the same time, a second run at that time finds no
    candidate and changes nothing. *)
Theorem process_decay_idempotent (now now' : R) (conn : store)
  (dry_run : bool) :
  process_decay now now' (fst (process_decay now now conn false)) dry_run
  = (fst (process_decay now now conn false), NoCandidates).
Proof.
  apply process_decay_no_candidates. apply process_decay_leaves_none.
Qed.

Lemma count_forgotten_after (now : R) (rows : list item) :
  List.length (filter is_forgotten (map (forget_where now) rows)) =
  (List.length (filter is_forgotten rows)
   + List.length (filter (decay_where now) rows))%nat.
Proof.
  induction rows as [| row rows IH]; simpl; [reflexivity|].
  unfold forget_where at 1.
  destruct (decay_where now row) eqn:Hsel.
  - assert (Hnot : is_forgotten row = false).
    { unfold decay_where in Hsel. unfold is_forgotten.
      apply andb_true_iff in Hsel as [Hsel _].
      apply andb_true_iff in Hsel as [Hsel _].
      apply negb_true_iff in Hsel. exact Hsel. }
    rewrite Hnot. change (is_forgotten (set_forgotten row)) with true.
    simpl. rewrite IH. lia.
  - destruct (is_forgotten row); simpl; rewrite IH; lia.
Qed.

Lemma process_decay_events_same_time (now : R) (conn : store) :
  NoDup (map item_id (events conn)) ->
  events (fst (process_decay now now conn false))
    = map (forget_where now) (events conn).
Proof.
  intros Hnd.
  destruct (filter (decay_where now) (events conn)) as [| c cs] eqn:Hsel.
  - rewrite process_decay_no_candidates by exact Hsel.
    rewrite forget_where_none by exact Hsel. reflexivity.
  - rewrite process_decay_apply; [reflexivity | exact Hnd |].
    rewrite Hsel. discriminate.
Qed.

(** X22.  The report matches the effect.  With unique event ids and one
    time for both statements, an apply run raises the number of
    forgotten events by exactly the number of rows the listing query
    selects; when that number is not 0 the apply run reports these rows
    as marked and the dry run reports the same rows as candidates. *)
Theorem process_decay_report (now : R) (conn : store) :
  NoDup (map item_id (events conn)) ->
  List.length
    (filter is_forgotten (events (fst (process_decay now now conn false))))
  = (List.length (filter is_forgotten (events conn))
     + List.length (filter (decay_where now) (events conn)))%nat /\
  (filter (decay_where now) (events conn) <> [] ->
   snd (process_decay now now conn false)
     = MarkedForgotten (filter (decay_where now) (events conn)) /\
   snd (process_decay now now conn true)
     = DryRun (filter (decay_where now) (events conn))) /\
  (filter (decay_where now) (events conn) = [] ->
   snd (process_decay now now conn false) = NoCandidates /\
   snd (process_decay now now conn true) = NoCandidates).
Proof.
  intros Hnd. split; [|split].
  - rewrite process_decay_events_same_time by exact Hnd.
    apply count_forgotten_after.
  - intros Hsome. unfold process_decay.
    destruct (filter (decay_where now) (events conn)); [contradiction|].
    split; reflexivity.
  - intros Hnone. unfold process_decay. rewrite Hnone. split; reflexivity.
Qed.

Lemma process_decay_report_witness :
  List.length
    (filter is_forgotten
       (events (fst (process_decay 8640000 8640000 faded_store false))))
  = (List.length (filter is_forgotten (events faded_store))
     + List.length (filter (decay_where 8640000) (events faded_store)))%nat.
Proof.
  apply (process_decay_report 8640000 faded_store).
  simpl. constructor; [simpl; tauto | constructor].
Defined.

Lemma Forall2_chain {A : Type} (P : A -> A -> Prop) (xs ys zs : list A) :
  (forall a b c, P a b -> P b c -> P a c) ->
  Forall2 P xs ys -> Forall2 P ys zs -> Forall2 P xs zs.
Proof.
  intros Htrans Hxy. revert zs.
  induction Hxy as [| x y xs ys Hxy Hrest IH]; intros zs Hyz;
    inversion Hyz; subst; constructor.
  - eapply Htrans; eassumption.
  - apply IH. assumption.
Qed.

Lemma kept_if_important_trans (a b c : item) :
  kept_if_important a b -> kept_if_important b c -> kept_if_important a c.
Proof.
  intros [Hid1 [Hi1 Hs1]] [Hid2 [Hi2 Hs2]].
  split; [congruence|]. split; [congruence|].
  intros Himp. rewrite Hs2 by (rewrite Hi1; exact Himp). apply Hs1.
  exact Himp.
Qed.

Lemma decay_where_importance (now : R) (row : item) :
  decay_where now row = true -> importance row < 0.3.
Proof.
  intros Hsel. apply decay_where_true_iff in Hsel. apply Hsel.
Qed.

Lemma step_ids (conn : store) (o : op) :
  map item_id (events (step conn o)) = map item_id (events conn).
Proof.
  destruct (step_fixed_columns conn o) as [Hev _].
  apply (f_equal (map (fun c : Z * string * R * R => fst (fst (fst c)))))
    in Hev.
  rewrite !map_map in Hev. exact Hev.
Qed.

Lemma step_kept_if_important (conn : store) (o : op) :
  NoDup (map item_id (events conn)) ->
  Forall2 kept_if_important (events conn) (events (step conn o)).
Proof.
  intros Hnd. destruct o as [now t k q | n1 n2 dry]; simpl.
  - destruct (review_item_store now conn t k q)
      as [-> | [row [R0 [next [_ [_ [_ ->]]]]]]].
    + apply Forall2_same. intros a. repeat split; reflexivity.
    + unfold review_written, insert_log, with_table, table_of.
      destruct (is_events t); simpl.
      * apply Forall2_map_self. intros a.
        destruct (item_id a =? k)%Z; repeat split; reflexivity.
      * apply Forall2_same. intros a. repeat split; reflexivity.
  - destruct dry.
    + rewrite process_decay_dry_run.
      apply Forall2_same. intros a. repeat split; reflexivity.
    + destruct (filter (decay_where n1) (events conn)) as [| c cs] eqn:Hsel.
      * rewrite process_decay_no_candidates by exact Hsel.
        apply Forall2_same. intros a. repeat split; reflexivity.
      * rewrite process_decay_apply;
          [| exact Hnd | rewrite Hsel; discriminate].
        simpl. apply Forall2_map_self. intros a. unfold forget_where.
        destruct (decay_where n2 a) eqn:Ha.
        -- apply decay_where_importance in Ha.
           split; [reflexivity|]. split; [reflexivity|]. intros Himp. lra.
        -- repeat split; reflexivity.
Qed.

(** X20.  With unique event ids, an event of importance 0.3 or more is
    never forgotten: across any sequence of reviews and sweeps it keeps
    its consolidation state and its importance. *)
Theorem important_events_are_kept (ops : list op) (conn : store) :
  NoDup (map item_id (events conn)) ->
  Forall2 kept_if_important (events conn) (events (run conn ops)).
Proof.
  revert conn. induction ops as [| o ops IH]; intros conn Hnd.
  - apply Forall2_same. intros a. repeat split; reflexivity.
  - rewrite run_cons.
    apply (Forall2_chain _ _ (events (step conn o))).
    + apply kept_if_important_trans.
    + apply step_kept_if_important. exact Hnd.
    + apply IH. rewrite step_ids. exact Hnd.
Qed.

Lemma important_events_are_kept_witness :
  Forall2 kept_if_important (events sample_store)
    (events
       (run sample_store
          [Decay 8640000 8640000 false; Review 8640000 "events" 1 2])).
Proof.
  apply (important_events_are_kept
           [Decay 8640000 8640000 false; Review 8640000 "events" 1 2]
           sample_store).
  simpl. constructor; [simpl; tauto | constructor].
Defined.

(** The sweep leaves the row behind an id as it was when no event with
    that id satisfies the condition at the time of the update. *)
Lemma process_decay_row_kept (n1 n2 : R) (conn : store) (dry_run : bool)
  (k : Z) :
  (forall r, In r (events conn) -> item_id r = k ->
             decay_where n2 r = false) ->
  fetchone (events (fst (process_decay n1 n2 conn dry_run))) k
    = fetchone (events conn) k.
Proof.
  intros Hnone. unfold process_decay.
  destruct (filter (decay_where n1) (events conn)) as [| c cs];
    [reflexivity|].
  destruct dry_run; [reflexivity|]. cbn [fst events].
  rewrite fetchone_map.
  2:{ intros r. destruct (existsb _ _); reflexivity. }
  destruct (fetchone (events conn) k) as [row |] eqn:Hrow; [|reflexivity].
  simpl. apply fetchone_id in Hrow as [Hin Hk].
  destruct (existsb (Z.eqb (item_id row))
              (map item_id (filter (decay_where n2) (events conn))))
    eqn:Hex; [|reflexivity].
  exfalso. apply existsb_exists in Hex as [x [Hx Heq]].
  apply Z.eqb_eq in Heq. subst x.
  apply in_map_iff in Hx as [r [Hid Hr]].
  apply filter_In in Hr as [Hr Hsel].
  rewrite (Hnone r Hr ltac:(congruence)) in Hsel. discriminate.
Qed.

Lemma decay_where_fresh (n2 now s : R) (r : Z) (next : R) (row : item) :
  0.5 <= s ->
  n2 <= now + 86400 ->
  decay_where n2 (set_review s r now next row) = false.
Proof.
  intros Hs Hn. apply decay_where_recent.
  - simpl. lra.
  - unfold hours_since. simpl. lra.
Qed.

(** X21.  A recorded review protects for a day.  When a row with
    strength in [0.5, 10], a last review or creation not after the clock
    reading and a repetition count of at least 0 is reviewed, with any
    quality, a sweep in apply mode whose update runs no later than 24
    hours after the review leaves the row's consolidation state as it
    was. *)
Theorem reviewed_item_survives_sweep (now n1 n2 : R) (conn : store)
  (t : string) (k quality : Z) (row : item) :
  fetchone (table_of conn t) k = Some row ->
  0.5 <= memory_strength row <= 10.0 ->
  COALESCE (last_reviewed_at row) (created_at row) <= now ->
  (0 <= repetition_count row)%Z ->
  n2 <= now + 86400 ->
  exists row',
    fetchone
      (table_of (run conn [Review now t k quality; Decay n1 n2 false]) t) k
      = Some row' /\
    consolidation_state row' = consolidation_state row /\
    last_reviewed_at row' = Some now.
Proof.
  intros Hrow Hs Hlast Hrep Hn2.
  assert (Hret := calculate_retention_defined (hours_since now row)
                    (memory_strength row) ltac:(lra)).
  destruct (review_item_recorded now conn t k quality row _ Hrow Hret Hrep)
    as [next [_ [_ Hrev]]].
  assert (HR :
    0 < exp (- hours_since now row / (memory_strength row * 24)) <= 1).
  { apply (retention_in_unit (hours_since now row) (memory_strength row));
      [apply hours_since_nonneg; exact Hlast | lra | exact Hret]. }
  destruct (strengthen_bounds (memory_strength row) (repetition_count row)
              (exp (- hours_since now row / (memory_strength row * 24)))
              quality ltac:(lra) ltac:(lra)) as [[Hnew _] _].
  unfold run. simpl fold_left. rewrite Hrev. cbn [fst].
  set (R0 := exp (- hours_since now row / (memory_strength row * 24))) in *.
  set (new := strengthen (memory_strength row) (repetition_count row) R0
                quality) in *.
  set (conn1 := review_written now conn t k quality row R0 next).
  assert (Hrow1 : fetchone (table_of conn1 t) k =
                  Some (set_review (fst new) (snd new) now
                          (now + next * 3600) row)).
  { unfold conn1.
    rewrite fetchone_review_written, Bool.eqb_reflx, Z.eqb_refl, Hrow.
    reflexivity. }
  exists (set_review (fst new) (snd new) now (now + next * 3600) row).
  split; [|split; reflexivity].
  rewrite <- Hrow1. unfold table_of.
  destruct (is_events t) eqn:Ht.
  - apply process_decay_row_kept. intros r Hin Hk.
    assert (Htab : events conn1 = table_of conn1 t)
      by (unfold table_of; rewrite Ht; reflexivity).
    rewrite Htab in Hin. unfold conn1 in Hin.
    rewrite (proj1 (review_written_tables now conn t k quality row R0 next))
      in Hin.
    unfold update_where_id in Hin.
    apply in_map_iff in Hin as [r0 [Hr0 _]].
    destruct (item_id r0 =? k)%Z eqn:Hk0.
    + subst r. apply decay_where_fresh; assumption.
    + subst r. apply Z.eqb_neq in Hk0. contradiction.
  - f_equal. apply process_decay_lessons.
Qed.

Lemma reviewed_item_survives_sweep_witness :
  exists row',
    fetchone
      (table_of
         (run sample_store
            [Review 86400 "events" 1 0; Decay 90000 90000 false])
         "events") 1 = Some row' /\
    consolidation_state row' = consolidation_state sample_event.
Proof.
  destruct (reviewed_item_survives_sweep 86400 90000 90000 sample_store
              "events" 1 0 sample_event)
    as [row' [Hrow' [Hst _]]].
  - reflexivity.
  - simpl. lra.
  - simpl. lra.
  - simpl. lia.
  - lra.
  - exists row'. split; assumption.
Defined.

(** * The command line as a whole *)

Lemma main_quality_ok (q : Z) :
  (0 <= q <= 5)%Z -> negb ((0 <=? q) && (q <=? 5))%Z = false.
Proof.
  intros Hq. apply negb_false_iff. apply andb_true_iff.
  split; apply Z.leb_le; lia.
Qed.

(** X23.  [main] serves one request, in the order [--due], [--review],
    [--stats], [--decay].  A quality outside 0..5 ends it before anything
    else.  It leaves the database as it was whenever [--due] is given,
    and, without a [--review] text, whenever [--stats] is given or
    [--decay] is absent or [--apply] is absent.  With [--due] absent a
    [--review] text that is not empty goes to the review whatever the
    other flags; the sweep in apply mode runs only when [--due],
    [--review] and [--stats] are absent. *)
Theorem main_dispatch (py_int : string -> result Z)
  (now now_select now_update : R) (conn : store) (a : args) :
  (~ (0 <= arg_quality a <= 5)%Z ->
   main py_int now now_select now_update conn a = (conn, Raise SystemExit)) /\
  (arg_due a = true ->
   fst (main py_int now now_select now_update conn a) = conn) /\
  ((0 <= arg_quality a <= 5)%Z -> arg_due a = false ->
   forall c review,
     arg_review a = Some (String c review) ->
     fst (main py_int now now_select now_update conn a) =
     fst (main_review py_int now conn (String c review) (arg_quality a))) /\
  ((arg_review a = None \/ arg_review a = Some EmptyString) ->
   (arg_stats a = true \/ arg_decay a = false \/ arg_apply a = false) ->
   fst (main py_int now now_select now_update conn a) = conn) /\
  ((0 <= arg_quality a <= 5)%Z -> arg_due a = false ->
   (arg_review a = None \/ arg_review a = Some EmptyString) ->
   arg_stats a = false -> arg_decay a = true -> arg_apply a = true ->
   fst (main py_int now now_select now_update conn a) =
   fst (process_decay now_select now_update conn false)).
Proof.
  split; [|split; [|split; [|split]]].
  - intros Hq. unfold main.
    destruct ((0 <=? arg_quality a) && (arg_quality a <=? 5))%Z eqn:Hin;
      [|reflexivity].
    apply andb_true_iff in Hin as [H0 H5].
    apply Z.leb_le in H0. apply Z.leb_le in H5. lia.
  - intros Hdue. unfold main. rewrite Hdue.
    destruct (negb _); reflexivity.
  - intros Hq Hdue c review Hrev. unfold main.
    rewrite main_quality_ok by exact Hq. rewrite Hdue, Hrev.
    destruct (main_review py_int now conn (String c review) (arg_quality a));
      reflexivity.
  - intros Hrev Hflags. unfold main.
    destruct (negb _); [reflexivity|].
    destruct (arg_due a); [reflexivity|].
    assert (Hrest :
      fst (if arg_stats a then (conn, Ok ShownStats)
           else if arg_decay a
                then let '(conn', report) :=
                       process_decay now_select now_update conn
                         (negb (arg_apply a)) in
                     (conn', Ok (Decayed report))
                else (conn, Ok PrintedHelp)) = conn).
    { destruct (arg_stats a); [reflexivity|].
      destruct (arg_decay a); [|reflexivity].
      destruct Hflags as [Hf | [Hf | Hf]]; try discriminate.
      rewrite Hf. simpl negb.
      pose proof (process_decay_dry_run now_select now_update conn) as Hdry.
      destruct (process_decay now_select now_update conn true).
      exact Hdry. }
    destruct Hrev as [-> | ->]; exact Hrest.
  - intros Hq Hdue Hrev Hstats Hdecay Happly. unfold main.
    rewrite main_quality_ok by exact Hq.
    rewrite Hdue, Hstats, Hdecay, Happly. simpl negb.
    destruct Hrev as [-> | ->];
      destruct (process_decay now_select now_update conn false);
      reflexivity.
Qed.

Lemma main_dispatch_witness :
  fst (main decimal_int 0 8640000 8640000 faded_store
         (mk_args true None 4 false true true 10)) = faded_store.
Proof.
  apply (proj1 (proj2 (main_dispatch decimal_int 0 8640000 8640000
                         faded_store
                         (mk_args true None 4 false true true 10)))).
  reflexivity.
Defined.

(** * The reference given to [--review] *)

Lemma split_colon_nonempty (s : string) : split_colon s <> [].
Proof.
  destruct s as [| c rest]; simpl; [discriminate|].
  destruct (Ascii.eqb c ":"%char); [discriminate|].
  destruct (split_colon rest); discriminate.
Qed.

Lemma join_colon_cons (part : string) (rest : list string) :
  rest <> [] ->
  join_colon (part :: rest) = (part ++ String ":"%char (join_colon rest))%string.
Proof. destruct rest; [contradiction | reflexivity]. Qed.

Lemma join_colon_push (c : ascii) (part : string) (parts : list string) :
  join_colon (String c part :: parts) = String c (join_colon (part :: parts)).
Proof. destruct parts; reflexivity. Qed.

Lemma split_colon_parts (s : string) :
  join_colon (split_colon s) = s /\
  List.length (split_colon s) = S (count_colons s) /\
  Forall (fun part => count_colons part = 0%nat) (split_colon s).
Proof.
  induction s as [| c rest [IHjoin [IHlen IHall]]]; simpl.
  - repeat split. constructor; [reflexivity | constructor].
  - destruct (Ascii.eqb c ":"%char) eqn:Hc.
    + apply Ascii.eqb_eq in Hc. subst c. split; [|split].
      * rewrite join_colon_cons by apply split_colon_nonempty.
        simpl. rewrite IHjoin. reflexivity.
      * simpl. rewrite IHlen. reflexivity.
      * constructor; [reflexivity | exact IHall].
    + destruct (split_colon rest) as [| part parts] eqn:Hsplit.
      { exfalso. exact (split_colon_nonempty rest Hsplit). }
      split; [|split].
      * rewrite join_colon_push, IHjoin. reflexivity.
      * simpl in *. exact IHlen.
      * inversion IHall as [| p ps Hpart Hparts]; subst.
        constructor; [|exact Hparts]. simpl. rewrite Hc, Hpart. reflexivity.
Qed.

(** X24.  Splitting at [':'] loses nothing: joining the parts with
    [':'] gives the text back, there is one part more than the text has
    colons, and no part contains a colon. *)
Theorem split_colon_round_trip (s : string) :
  join_colon (split_colon s) = s /\
  List.length (split_colon s) = S (count_colons s) /\
  Forall (fun part => count_colons part = 0%nat) (split_colon s).
Proof. apply split_colon_parts. Qed.

(** X25.  With a quality in 0..5, a reference reaches [review_item]
    only if it has exactly one colon: any other number ends with the
    format message and no write.  With one colon the text before it is
    the table name and the text after it is read as the id; if that is
    no integer the call raises and writes nothing. *)
Theorem main_review_one_colon (py_int : string -> result Z) (now : R)
  (conn : store) (review : string) (quality : Z) :
  (0 <= quality <= 5)%Z ->
  (count_colons review <> 1%nat ->
   main_review py_int now conn review quality = (conn, Ok BadFormat)) /\
  (count_colons review = 1%nat ->
   exists t id_text,
     review = (t ++ String ":"%char id_text)%string /\
     count_colons t = 0%nat /\
     count_colons id_text = 0%nat /\
     main_review py_int now conn review quality =
     match py_int id_text with
     | Raise e => (conn, Raise e)
     | Ok k => review_item now conn t k quality
     end).
Proof.
  intros Hq.
  destruct (split_colon_parts review) as [Hjoin [Hlen Hall]].
  unfold main_review.
  replace (negb ((0 <=? quality) && (quality <=? 5))%Z) with false.
  2:{ symmetry. apply negb_false_iff, andb_true_iff.
      split; apply Z.leb_le; lia. }
  split.
  - intros Hcount.
    destruct (split_colon review) as [| a [| b [| c rest]]];
      try reflexivity.
    simpl in Hlen. lia.
  - intros Hcount.
    destruct (split_colon review) as [| a [| b [| c rest]]];
      simpl in Hlen; try lia.
    exists a, b. simpl in Hjoin.
    inversion Hall as [| ? ? Ha Hrest]; subst.
    inversion Hrest as [| ? ? Hb _]; subst.
    repeat split; try assumption; try reflexivity.
Qed.

Lemma main_review_one_colon_witness :
  main_review decimal_int 0 sample_store "events:1:2" 4
    = (sample_store, Ok BadFormat).
Proof.
  apply (proj1 (main_review_one_colon decimal_int 0 sample_store
                  "events:1:2" 4 ltac:(lia))).
  simpl. lia.
Defined.

(** * How much a review changes the strength, and when it schedules *)

Lemma Rmin_monotone (c a b : R) : a <= b -> Rmin c a <= Rmin c b.
Proof.
  intros Hab. unfold Rmin.
  destruct (Rle_dec c a), (Rle_dec c b); lra.
Qed.

Lemma retention_falls_with_hours (h h' s : R) :
  0 < s -> h <= h' ->
  exp (- h' / (s * 24)) <= exp (- h / (s * 24)).
Proof.
  intros Hs [Hlt | ->]; [|lra].
  left. apply exp_increasing, exponent_decreasing_in_hours; assumption.
Qed.

(** X26.  The longer the wait, the larger the gain: of two successful
    reviews of the same row with the same quality, neither made before
    the row's last review or creation, the one made at the later clock
    reading stores a strength that is at least as large. *)
Theorem later_review_strengthens_more (now now' : R) (conn : store)
  (t : string) (k quality : Z) (row : item) :
  fetchone (table_of conn t) k = Some row ->
  0 < memory_strength row ->
  (0 <= repetition_count row)%Z ->
  (3 <= quality)%Z ->
  COALESCE (last_reviewed_at row) (created_at row) <= now ->
  now <= now' ->
  exists row1 row2,
    fetchone (table_of (fst (review_item now conn t k quality)) t) k
      = Some row1 /\
    fetchone (table_of (fst (review_item now' conn t k quality)) t) k
      = Some row2 /\
    memory_strength row1 <= memory_strength row2.
Proof.
  intros Hrow Hs Hrep Hq Hlast Hnow.
  assert (Hret := calculate_retention_defined (hours_since now row)
                    (memory_strength row) ltac:(lra)).
  assert (Hret' := calculate_retention_defined (hours_since now' row)
                     (memory_strength row) ltac:(lra)).
  destruct (review_item_updates now conn t k quality row _ Hrow Hret Hrep)
    as [next [Hrow1 _]].
  destruct (review_item_updates now' conn t k quality row _ Hrow Hret' Hrep)
    as [next' [Hrow2 _]].
  eexists _, _. split; [exact Hrow1|]. split; [exact Hrow2|].
  cbn [memory_strength set_review].
  rewrite !strengthen_success by exact Hq. cbn [fst].
  apply Rmin_monotone.
  pose proof (strength_multiplier_ge quality Hq) as Hm.
  assert (Hh : hours_since now row <= hours_since now' row)
    by (unfold hours_since; lra).
  pose proof (retention_falls_with_hours _ _ _ Hs Hh) as HR.
  set (m := 1.1 + IZR (quality - 3) * 0.1) in *.
  assert (Hsm : 0 < memory_strength row * m) by nra.
  nra.
Qed.

Lemma later_review_strengthens_more_witness :
  exists row1 row2,
    fetchone
      (table_of (fst (review_item 3600 sample_store "events" 1 4)) "events")
      1 = Some row1 /\
    fetchone
      (table_of (fst (review_item 86400 sample_store "events" 1 4)) "events")
      1 = Some row2 /\
    memory_strength row1 <= memory_strength row2.
Proof.
  apply (later_review_strengthens_more 3600 86400 sample_store "events" 1 4
           sample_event).
  - reflexivity.
  - simpl. lra.
  - simpl. lia.
  - lia.
  - simpl. lra.
  - lra.
Defined.

(** X27.  A successful review with a quality from 3 to 5 of a row of
    positive strength [s] whose last review or creation is not after the
    clock reading multiplies the strength by at least 1.1 and by at most
    1.95, up to the cap: the stored strength lies between
    [min 10 (s * 1.1)] and [min 10 (s * 1.95)]. *)
Theorem successful_review_gain (now : R) (conn : store) (t : string)
  (k quality : Z) (row : item) :
  fetchone (table_of conn t) k = Some row ->
  0 < memory_strength row ->
  COALESCE (last_reviewed_at row) (created_at row) <= now ->
  (0 <= repetition_count row)%Z ->
  (3 <= quality <= 5)%Z ->
  exists row',
    fetchone (table_of (fst (review_item now conn t k quality)) t) k
      = Some row' /\
    Rmin 10.0 (memory_strength row * 1.1) <= memory_strength row'
      <= Rmin 10.0 (memory_strength row * 1.95).
Proof.
  intros Hrow Hs Hlast Hrep Hq.
  assert (Hret := calculate_retention_defined (hours_since now row)
                    (memory_strength row) ltac:(lra)).
  destruct (review_item_updates now conn t k quality row _ Hrow Hret Hrep)
    as [next [Hrow' _]].
  eexists. split; [exact Hrow'|].
  cbn [memory_strength set_review].
  rewrite strengthen_success by lia. cbn [fst].
  assert (HR :
    0 < exp (- hours_since now row / (memory_strength row * 24)) <= 1).
  { apply (retention_in_unit (hours_since now row) (memory_strength row));
      [apply hours_since_nonneg; exact Hlast | exact Hs | exact Hret]. }
  assert (Hm : 1.1 <= 1.1 + IZR (quality - 3) * 0.1 <= 1.3).
  { assert (0 <= IZR (quality - 3) <= 2)
      by (split; [apply (IZR_le 0) | apply (IZR_le _ 2)]; lia).
    lra. }
  set (m := 1.1 + IZR (quality - 3) * 0.1) in *.
  set (R0 := exp (- hours_since now row / (memory_strength row * 24))) in *.
  assert (Hsm : memory_strength row * 1.1 <= memory_strength row * m) by nra.
  assert (Hsm' : memory_strength row * m <= memory_strength row * 1.3)
    by nra.
  split; apply Rmin_monotone; nra.
Qed.

Lemma successful_review_gain_witness :
  exists row',
    fetchone
      (table_of (fst (review_item 86400 sample_store "events" 1 5)) "events")
      1 = Some row' /\
    Rmin 10.0 (memory_strength sample_event * 1.1) <= memory_strength row'
      <= Rmin 10.0 (memory_strength sample_event * 1.95).
Proof.
  apply (successful_review_gain 86400 sample_store "events" 1 5 sample_event).
  - reflexivity.
  - simpl. lra.
  - simpl. lra.
  - simpl. lia.
  - lia.
Defined.

(** X28.  [review_item] passes the repetition count it has already
    raised to [get_next_interval], which raises it once more to find the
    rung.  So a recorded review of a row with a count of at least 0 never
    schedules the one-hour rung: the interval is 0.33 hours after a
    failed review and at least 24 * 0.8 = 19.2 hours after a successful
    one. *)
Theorem review_item_skips_one_hour (now : R) (conn : store) (t : string)
  (k quality : Z) (row : item) (R0 : R) :
  fetchone (table_of conn t) k = Some row ->
  calculate_retention (hours_since now row) (memory_strength row) = Ok R0 ->
  (0 <= repetition_count row)%Z ->
  exists row' next,
    fetchone (table_of (fst (review_item now conn t k quality)) t) k
      = Some row' /\
    next_review_at row' = Some (now + next * 3600) /\
    ((quality < 3)%Z /\ next = 0.33 \/
     (3 <= quality)%Z /\
     get_next_interval (repetition_count row + 1) quality = Ok next /\
     19.2 <= next).
Proof.
  intros Hrow Hret Hrep.
  destruct (review_item_recorded now conn t k quality row R0 Hrow Hret Hrep)
    as [next [Hnext [_ Hrev]]].
  eexists _, next. rewrite Hrev. cbn [fst].
  rewrite fetchone_review_written, Bool.eqb_reflx, Z.eqb_refl, Hrow.
  split; [reflexivity|]. split; [reflexivity|].
  destruct (Z_lt_le_dec quality 3) as [Hq | Hq].
  - left. split; [exact Hq|].
    rewrite get_next_interval_failed in Hnext by exact Hq. congruence.
  - right. split; [exact Hq|].
    rewrite strengthen_success in Hnext by exact Hq. cbn [snd] in Hnext.
    split; [exact Hnext|].
    destruct (ladder_rung (repetition_count row + 1) ltac:(lia))
      as [rung [Hnth _]].
    assert (H24 : 24 <= rung).
    { apply (sorted_nth_error INTERVALS 2
               (Z.to_nat (Z.min (repetition_count row + 1 + 1) 9)) 24 rung
               INTERVALS_sorted); [lia | reflexivity | exact Hnth]. }
    assert (Hpos : (0 <= repetition_count row + 1)%Z) by lia.
    rewrite (get_next_interval_success (repetition_count row + 1) quality
               rung Hpos Hq Hnth) in Hnext.
    injection Hnext as <-.
    destruct (quality =? 5)%Z; [lra|].
    destruct (quality =? 3)%Z; lra.
Qed.

Lemma review_item_skips_one_hour_witness :
  exists row' next,
    fetchone
      (table_of (fst (review_item 86400 sample_store "events" 1 3)) "events")
      1 = Some row' /\
    next_review_at row' = Some (86400 + next * 3600) /\
    19.2 <= next.
Proof.
  destruct (review_item_skips_one_hour 86400 sample_store "events" 1 3
              sample_event (exp (- (1 / 2))) eq_refl sample_event_retention
              ltac:(simpl; lia))
    as [row' [next [Hrow' [Hnext [[Hq _] | [_ [_ Hn]]]]]]].
  - lia.
  - exists row', next. repeat split; assumption.
Defined.
